(** * skchem.features.atom: atom featurizers and distance transformers

    A shallow embedding of [skchem/features/atom.py] and the properties
    of its feature registry, of the [AtomFeaturizer] configuration and of
    the distance transformers.

    Conventions of the embedding:
    - a Python [dict] is an insertion-ordered association list with
      string keys ([PyDict]); assigning to an existing key keeps the
      key's position, a new key goes last;
    - a raised exception is a value of [exn], a call that may raise
      returns a [result];
    - code that reads or writes the property dictionaries of the atoms of
      a molecule runs in the state monad [M] over [MolState];
    - the chemistry toolkit and the resource tables are external: they are
      fields of [Toolkit] and [Resource], taken as section variables. *)

From Stdlib Require Import List String Ascii Bool Arith ZArith QArith Lia.
Import ListNotations.
Local Close Scope Q_scope.
Local Open Scope string_scope.
Local Open Scope list_scope.

Set Implicit Arguments.

(** ** Python dictionaries *)

Module PyDict.

Section Dict.
Variable V : Type.

Definition t := list (string * V).

Definition empty : t := [].

(** [d.get(k)] / [k in d] / [d[k]] *)
Fixpoint get (k : string) (d : t) : option V :=
  match d with
  | [] => None
  | (k', v) :: r => if String.eqb k' k then Some v else get k r
  end.

Definition contains (k : string) (d : t) : bool :=
  match get k d with Some _ => true | None => false end.

(** [d[k] = v] *)
Fixpoint set (k : string) (v : V) (d : t) : t :=
  match d with
  | [] => [(k, v)]
  | (k', v') :: r =>
      if String.eqb k' k then (k', v) :: r else (k', v') :: set k v r
  end.

(** [d.update(other)] *)
Definition update (d other : t) : t :=
  fold_left (fun acc kv => set (fst kv) (snd kv) acc) other d.

(** a dict display [{k1: v1, k2: v2, ...}] *)
Definition literal (items : list (string * V)) : t := update empty items.

Definition keys (d : t) : list string := map fst d.
Definition values (d : t) : list V := map snd d.
Definition len (d : t) : nat := List.length d.
End Dict.

(** a dict comprehension [{kf x: vf x for x in l}] *)
Definition comprehension {A V : Type} (kf : A -> string) (vf : A -> V)
  (l : list A) : t V :=
fold_left (fun acc x => set (kf x) (vf x) acc) l (empty V).

End PyDict.

(** the names of a list in order of first occurrence: the keys a dict
    comprehension over the list ends up with *)
Fixpoint first_occurrences_from (seen l : list string) : list string :=
  match l with
  | [] => []
  | x :: r =>
      if existsb (String.eqb x) seen then first_occurrences_from seen r
      else x :: first_occurrences_from (seen ++ [x]) r
  end.

Definition first_occurrences (l : list string) : list string :=
  first_occurrences_from [] l.

(** ** Values, exceptions and results *)

(** a numpy / Python float: a number or the not-a-number sentinel *)
Inductive float := NaN | Num (q : Q).

Definition float_is_nan (x : float) : bool :=
  match x with NaN => true | Num _ => false end.

(** what a feature function returns *)
Inductive scalar := SBool (b : bool) | SInt (z : Z) | SFloat (x : float).

(** objects that are neither [str], [list], [dict] nor [pd.Series] *)
Inductive pyother :=
| PyNone
| PyBool (b : bool)
| PyInt (z : Z)
| PyFloat (x : float)
| PyTuple (items : list string).

Inductive exn :=
| KeyError (key : string)
| NotImplementedError (features : pyother)
| TypeError
| ValueError
| IndexError
| AttributeError.

Inductive result (A : Type) := Ok (a : A) | Raise (e : exn).
Arguments Ok {A} a.
Arguments Raise {A} e.

(** the two configuration errors under the names the specification uses *)
Definition UnsupportedFeatureSpec (features : pyother) : exn :=
  NotImplementedError features.
Definition UnknownFeatureName (name : string) : exn := KeyError name.

(** ** The chemistry toolkit's data model

    Molecules and atoms belong to the external toolkit; the module only
    reads them.  An atom is a handle: its owning molecule, its index in
    it and the attributes the toolkit has perceived for it. *)

Module HybridizationType.
(** the toolkit's enumeration of hybridization states *)
Inductive t := UNSPECIFIED | S | SP | SP2 | SP3 | SP3D | SP3D2 | OTHER.

(** [str(h)]: an enumerant prints as its name *)
Definition str (h : t) : string :=
  match h with
  | UNSPECIFIED => "UNSPECIFIED"
  | S => "S"
  | SP => "SP"
  | SP2 => "SP2"
  | SP3 => "SP3"
  | SP3D => "SP3D"
  | SP3D2 => "SP3D2"
  | OTHER => "OTHER"
  end.

Definition all : list t := [UNSPECIFIED; S; SP; SP2; SP3; SP3D; SP3D2; OTHER].

(** [HybridizationType.names]: the dict from name to enumerant *)
Definition names : PyDict.t t :=
  PyDict.literal (map (fun h => (str h, h)) all).

Definition eqb (h1 h2 : t) : bool :=
  match h1, h2 with
  | UNSPECIFIED, UNSPECIFIED | S, S | SP, SP | SP2, SP2 | SP3, SP3
  | SP3D, SP3D | SP3D2, SP3D2 | OTHER, OTHER => true
  | _, _ => false
  end.
End HybridizationType.

Record AtomData := {
  Symbol : string;
  AtomicNum : Z;
  Mass : float;
  ExplicitValence : Z;
  ImplicitValence : Z;
  FormalCharge : Z;
  IsAromatic : bool;
  NumImplicitHs : Z;
  NumExplicitHs : Z;
  InRing : bool;
  Hybridization : HybridizationType.t;
  Electronegativity : float
}.

Record Mol := {
  mol_atoms : list AtomData;
  mol_bonds : list (nat * nat);
  mol_conformer : option (list (Q * Q * Q))
}.

Record Atom := {
  GetOwningMol : Mol;
  GetIdx : nat;
  atom_data : AtomData
}.

(** [mol.atoms]: the atoms of a molecule in index order *)
Definition atoms (m : Mol) : list Atom :=
  map (fun id => {| GetOwningMol := m; GetIdx := fst id; atom_data := snd id |})
      (combine (seq 0 (List.length (mol_atoms m))) (mol_atoms m)).

Definition GetSymbol (a : Atom) : string := Symbol (atom_data a).
Definition GetAtomicNum (a : Atom) : Z := AtomicNum (atom_data a).
Definition GetExplicitValence (a : Atom) : Z := ExplicitValence (atom_data a).
Definition GetImplicitValence (a : Atom) : Z := ImplicitValence (atom_data a).
Definition GetFormalCharge (a : Atom) : Z := FormalCharge (atom_data a).
Definition GetIsAromatic (a : Atom) : bool := IsAromatic (atom_data a).
Definition GetNumImplicitHs (a : Atom) : Z := NumImplicitHs (atom_data a).
Definition GetNumExplicitHs (a : Atom) : Z := NumExplicitHs (atom_data a).
Definition IsInRing (a : Atom) : bool := InRing (atom_data a).
Definition GetHybridization (a : Atom) : HybridizationType.t :=
  Hybridization (atom_data a).

(** ** Mutable state: atom properties *)

(** a value stored under a name in an atom's property dictionary *)
Inductive propval :=
| PVBool (b : bool)
| PVInt (z : Z)
| PVFloat (x : float)
| PVStr (s : string).

Inductive toolkit_call :=
| CallComputeGasteigerCharges (m : Mol).

(** the mutable part of the molecule being processed: the property
    dictionary of each of its atoms, by atom index, and the toolkit
    computations run on it so far *)
Record MolState := {
  atom_props : list (PyDict.t propval);
  toolkit_calls : list toolkit_call
}.

Definition M (A : Type) : Type := MolState -> result A * MolState.

Definition ret {A} (a : A) : M A := fun st => (Ok a, st).
Definition raise {A} (e : exn) : M A := fun st => (Raise e, st).
Definition bind {A B} (c : M A) (k : A -> M B) : M B :=
  fun st =>
    match c st with
    | (Ok a, st') => k a st'
    | (Raise e, st') => (Raise e, st')
    end.
Definition lift {A} (r : result A) : M A := fun st => (r, st).

Notation "x <- c ;; k" := (bind c (fun x => k))
  (at level 61, c at next level, right associativity).

(** a list comprehension [[f x for x in l]] whose body has effects *)
Fixpoint for_each {A B} (f : A -> M B) (l : list A) : M (list B) :=
  match l with
  | [] => ret []
  | x :: r => y <- f x ;; ys <- for_each f r ;; ret (y :: ys)
  end.

(** the same for a body that can only raise *)
Fixpoint for_each_result {A B} (f : A -> result B) (l : list A)
  : result (list B) :=
  match l with
  | [] => Ok []
  | x :: r =>
      match f x with
      | Raise e => Raise e
      | Ok y =>
          match for_each_result f r with
          | Raise e => Raise e
          | Ok ys => Ok (y :: ys)
          end
      end
  end.

(** [a.props] *)
Definition props (a : Atom) (st : MolState) : PyDict.t propval :=
  nth (GetIdx a) (atom_props st) (PyDict.empty propval).

(** truth value of [res] in [if res and ...], [None] being false *)
Definition truthy (res : option propval) : bool :=
  match res with
  | None => false
  | Some (PVBool b) => b
  | Some (PVInt z) => negb (Z.eqb z 0)
  | Some (PVFloat NaN) => true
  | Some (PVFloat (Num q)) => negb (Qeq_bool q 0)
  | Some (PVStr s) => negb (String.eqb s "")
  end.

(** ** External collaborators *)

(** a two-dimensional numpy array *)
Record ndarray := {
  shape : nat * nat;
  data : list (list float)
}.

Record Toolkit := {
  (** [Lipinski._HAcceptors], [_HDonors], [_Heteroatoms]: matches, each a
      tuple of atom indices *)
  HAcceptors : Mol -> list (list nat);
  HDonors : Mol -> list (list nat);
  Heteroatoms : Mol -> list (list nat);
  (** [Crippen._GetAtomContribs]: (logP, MR) per atom *)
  GetAtomContribs : Mol -> list (float * float);
  (** [rdMolDescriptors._CalcTPSAContribs] *)
  CalcTPSAContribs : Mol -> list float;
  (** [rdMolDescriptors._CalcLabuteASAContribs]: (per atom, hydrogens) *)
  CalcLabuteASAContribs : Mol -> list float * float;
  (** [rdPartialCharges.ComputeGasteigerCharges]: rewrites the atoms'
      property dictionaries *)
  ComputeGasteigerCharges :
    Mol -> list (PyDict.t propval) -> list (PyDict.t propval);
  (** [Chem.GetDistanceMatrix], [Chem.Get3DDistanceMatrix] *)
  GetDistanceMatrix : Mol -> result ndarray;
  Get3DDistanceMatrix : Mol -> result ndarray;
  (** Python's [float(s)] on a string *)
  float_of_string : string -> option float
}.

(** [skchem.resource]: the organic elements and the periodic table,
    [PERIODIC_TABLE.loc[number, column]] *)
Record Resource := {
  ORGANIC : list string;
  PERIODIC_TABLE_loc : Z -> string -> result scalar
}.

(** ** The skchem wrappers the module reads *)

(** Modelled from the spec: the attributes [atomic_number], [atomic_mass]
    and [pauling_electronegativity] of the skchem atom wrapper, which is
    defined in [skchem.core] and not in this file; an atom exposes its
    atomic number, its atomic mass and its electronegativity. *)
Definition Atom_atomic_number (a : Atom) : Z := AtomicNum (atom_data a).
Definition Atom_atomic_mass (a : Atom) : float := Mass (atom_data a).
Definition Atom_pauling_electronegativity (a : Atom) : float :=
  Electronegativity (atom_data a).

(** [a.props.get(key, None)] *)
Definition props_get (a : Atom) (key : string) : M (option propval) :=
  fun st => (Ok (PyDict.get key (props a st)), st).

(** [a.props[key]] *)
Definition props_getitem (a : Atom) (key : string) : M propval :=
  fun st =>
    match PyDict.get key (props a st) with
    | Some v => (Ok v, st)
    | None => (Raise (KeyError key), st)
    end.

(** ** Feature functions *)

Definition feature := Atom -> M scalar.

(** the values a feature selection can hold: a function of an atom, or
    any other object a caller has put in a mapping *)
Inductive pyvalue :=
| Callable (f : feature)
| NotCallable (o : pyother).

(** [f(atom)] *)
Definition call (f : pyvalue) (a : Atom) : M scalar :=
  match f with
  | Callable g => g a
  | NotCallable _ => raise TypeError
  end.

Definition as_bool (f : Atom -> bool) : feature :=
  fun a => ret (SBool (f a)).
Definition as_int (f : Atom -> Z) : feature :=
  fun a => ret (SInt (f a)).
Definition as_float (f : Atom -> float) : feature :=
  fun a => ret (SFloat (f a)).
Definition result_map {A B} (f : A -> B) (r : result A) : result B :=
  match r with Ok a => Ok (f a) | Raise e => Raise e end.
Definition as_bool_result (f : Atom -> result bool) : feature :=
  fun a => lift (result_map SBool (f a)).
Definition as_float_result (f : Atom -> result float) : feature :=
  fun a => lift (result_map SFloat (f a)).

(** the argument of [str()] in [is_hybridized] *)
Inductive hybrid_type_arg :=
| HEnum (h : HybridizationType.t)
| HName (n : string).

Definition py_str (x : hybrid_type_arg) : string :=
  match x with
  | HEnum h => HybridizationType.str h
  | HName n => n
  end.

(** [float(v)] *)
Definition py_float (tk : Toolkit) (v : option propval) : result float :=
  match v with
  | None => Raise TypeError
  | Some (PVBool b) => Ok (Num (if b then 1%Q else 0%Q))
  | Some (PVInt z) => Ok (Num (inject_Z z))
  | Some (PVFloat x) => Ok x
  | Some (PVStr s) =>
      match float_of_string tk s with
      | Some x => Ok x
      | None => Raise ValueError
      end
  end.

(** [[i[0] for i in matches]] *)
Definition first_of_each (matches : list (list nat)) : result (list nat) :=
  for_each_result
    (fun i => match nth_error i 0 with
              | Some x => Ok x
              | None => Raise IndexError
              end)
    matches.

(** [seq[idx]] *)
Definition getitem {A} (l : list A) (idx : nat) : result A :=
  match nth_error l idx with
  | Some x => Ok x
  | None => Raise IndexError
  end.

Section Features.
Variable tk : Toolkit.
Variable rsrc : Resource.

Definition element (a : Atom) : string := GetSymbol a.

(** [symbol] defaults to ['C'] *)
Definition is_element (a : Atom) (symbol : string) : bool :=
  String.eqb (element a) symbol.

Definition element_features : PyDict.t pyvalue :=
  PyDict.comprehension
    (fun e => ("is_" ++ e)%string)
    (fun e => Callable (as_bool (fun a => is_element a e)))
    (ORGANIC rsrc).

Definition is_h_acceptor (a : Atom) : result bool :=
  let m := GetOwningMol a in
  let idx := GetIdx a in
  result_map (existsb (Nat.eqb idx)) (first_of_each (HAcceptors tk m)).

Definition is_h_donor (a : Atom) : result bool :=
  let m := GetOwningMol a in
  let idx := GetIdx a in
  result_map (existsb (Nat.eqb idx)) (first_of_each (HDonors tk m)).

Definition is_hetero (a : Atom) : result bool :=
  let m := GetOwningMol a in
  let idx := GetIdx a in
  result_map (existsb (Nat.eqb idx)) (first_of_each (Heteroatoms tk m)).

Definition atomic_number (a : Atom) : Z := GetAtomicNum a.

Definition atomic_mass (a : Atom) : float := Atom_atomic_mass a.

Definition explicit_valence (a : Atom) : Z := GetExplicitValence a.

Definition implicit_valence (a : Atom) : Z := GetImplicitValence a.

Definition valence (a : Atom) : Z :=
  (explicit_valence a + implicit_valence a)%Z.

Definition formal_charge (a : Atom) : Z := GetFormalCharge a.

Definition is_aromatic (a : Atom) : bool := GetIsAromatic a.

Definition num_implicit_hydrogens (a : Atom) : Z := GetNumImplicitHs a.

Definition num_explicit_hydrogens (a : Atom) : Z := GetNumExplicitHs a.

Definition num_hydrogens (a : Atom) : Z :=
  (num_implicit_hydrogens a + num_explicit_hydrogens a)%Z.

Definition is_in_ring (a : Atom) : bool := IsInRing a.

Definition crippen_log_p_contrib (a : Atom) : result float :=
  let idx := GetIdx a in
  let m := GetOwningMol a in
  result_map fst (getitem (GetAtomContribs tk m) idx).

Definition crippen_molar_refractivity_contrib (a : Atom) : result float :=
  let idx := GetIdx a in
  let m := GetOwningMol a in
  result_map snd (getitem (GetAtomContribs tk m) idx).

Definition tpsa_contrib (a : Atom) : result float :=
  let idx := GetIdx a in
  let m := GetOwningMol a in
  getitem (CalcTPSAContribs tk m) idx.

Definition labute_asa_contrib (a : Atom) : result float :=
  let idx := GetIdx a in
  let m := GetOwningMol a in
  getitem (fst (CalcLabuteASAContribs tk m)) idx.

(** [rdPartialCharges.ComputeGasteigerCharges(m)] as a step on the state *)
Definition run_ComputeGasteigerCharges (m : Mol) : M unit :=
  fun st =>
    (Ok tt,
     {| atom_props := ComputeGasteigerCharges tk m (atom_props st);
        toolkit_calls :=
          toolkit_calls st ++ [CallComputeGasteigerCharges m] |}).

(** [force_calc] defaults to [False] *)
Definition gasteiger_charge (a : Atom) (force_calc : bool) : M float :=
  res <- props_get a "_GasteigerCharge" ;;
  if truthy res && negb force_calc then
    lift (py_float tk res)
  else
    let m := GetOwningMol a in
    _ <- run_ComputeGasteigerCharges m ;;
    v <- props_getitem a "_GasteigerCharge" ;;
    lift (py_float tk (Some v)).

Definition pauling_electronegativity (a : Atom) : float :=
  Atom_pauling_electronegativity a.

Definition first_ionization (a : Atom) : result scalar :=
  PERIODIC_TABLE_loc rsrc (Atom_atomic_number a) "first_ionisation_energy".

Definition group (a : Atom) : result scalar :=
  PERIODIC_TABLE_loc rsrc (Atom_atomic_number a) "group".

Definition period (a : Atom) : result scalar :=
  PERIODIC_TABLE_loc rsrc (Atom_atomic_number a) "period".

(** [hybrid_type] defaults to [HybridizationType.SP3] *)
Definition is_hybridized (a : Atom) (hybrid_type : hybrid_type_arg) : bool :=
  String.eqb (HybridizationType.str (GetHybridization a)) (py_str hybrid_type).

Definition hybridization_features : PyDict.t pyvalue :=
  PyDict.comprehension
    (fun n => ("is_" ++ n ++ "_hybridized")%string)
    (fun n => Callable (as_bool (fun a => is_hybridized a (HName n))))
    (PyDict.keys HybridizationType.names).

(** the dict display that [ATOM_FEATURES] starts as *)
Definition ATOM_FEATURES_display : PyDict.t pyvalue :=
  PyDict.literal [
    ("atomic_number", Callable (as_int atomic_number));
    ("atomic_mass", Callable (as_float atomic_mass));
    ("formal_charge", Callable (as_int formal_charge));
    ("gasteiger_charge",
       Callable (fun a => x <- gasteiger_charge a false ;; ret (SFloat x)));
    ("pauling_electronegativity", Callable (as_float pauling_electronegativity));
    ("first_ionisation", Callable (fun a => lift (first_ionization a)));
    ("group", Callable (fun a => lift (group a)));
    ("period", Callable (fun a => lift (period a)));
    ("valence", Callable (as_int valence));
    ("is_aromatic", Callable (as_bool is_aromatic));
    ("num_hydrogens", Callable (as_int num_hydrogens));
    ("is_in_ring", Callable (as_bool is_in_ring));
    ("log_p_contrib", Callable (as_float_result crippen_log_p_contrib));
    ("molar_refractivity_contrib",
       Callable (as_float_result crippen_molar_refractivity_contrib));
    ("is_h_acceptor", Callable (as_bool_result is_h_acceptor));
    ("is_h_donor", Callable (as_bool_result is_h_donor));
    ("is_heteroatom", Callable (as_bool_result is_hetero));
    ("total_polar_surface_area_contrib", Callable (as_float_result tpsa_contrib));
    ("total_labute_accessible_surface_area",
       Callable (as_float_result labute_asa_contrib))
  ].

(** the registry after the two [update] calls *)
Definition ATOM_FEATURES : PyDict.t pyvalue :=
  PyDict.update (PyDict.update ATOM_FEATURES_display element_features)
                hybridization_features.

End Features.

(** ** AtomFeaturizer *)

(** a [pd.Series]: labelled values in order; labels may repeat *)
Record Series := {
  index_name : option string;
  items : list (string * pyvalue)
}.

(** a [pd.Index] *)
Record Index := {
  labels : list string;
  name : option string
}.

(** what a caller can pass as [features] *)
Inductive features_arg :=
| FStr (s : string)
| FList (l : list string)
| FDict (d : PyDict.t pyvalue)
| FSeries (s : Series)
| FOther (o : pyother).

(** the value [features] is rebound to before [pd.Series(features)] *)
Inductive mapping :=
| MDict (d : PyDict.t pyvalue)
| MSeries (s : Series).

(** [pd.Series(features)]: a dict gives its entries in dict order, a
    Series is taken as it is *)
Definition pd_Series (m : mapping) : Series :=
  match m with
  | MDict d => {| index_name := None; items := d |}
  | MSeries s => s
  end.

(** [s.index.name = n] *)
Definition set_index_name (s : Series) (n : string) : Series :=
  {| index_name := Some n; items := items s |}.

Record AtomFeaturizer := {
  _features : option Series;
  n_jobs : Z;
  verbose : bool
}.

(** [{feature: registry[feature] for feature in features}], the
    comprehension continued from the dict [acc] *)
Fixpoint select_features (registry : PyDict.t pyvalue) (features : list string)
    (acc : PyDict.t pyvalue) : result (PyDict.t pyvalue) :=
  match features with
  | [] => Ok acc
  | feature :: rest =>
      match PyDict.get feature registry with
      | None => Raise (KeyError feature)
      | Some f => select_features registry rest (PyDict.set feature f acc)
      end
  end.

Section Featurizer.
Variable tk : Toolkit.
Variable rsrc : Resource.

(** the setter of the [features] property *)
Definition set_features (self : AtomFeaturizer) (features : features_arg)
  : result AtomFeaturizer :=
  let rebound :=
    match features with
    | FStr s =>
        if String.eqb s "all" then Ok (MDict (ATOM_FEATURES tk rsrc))
        else
          match PyDict.get s (ATOM_FEATURES tk rsrc) with
          | None => Raise (KeyError s)
          | Some f => Ok (MDict (PyDict.literal [(s, f)]))
          end
    | FList l =>
        result_map MDict
          (select_features (ATOM_FEATURES tk rsrc) l (PyDict.empty pyvalue))
    | FDict d => Ok (MDict d)
    | FSeries s => Ok (MSeries s)
    | FOther o => Raise (NotImplementedError o)
    end in
  match rebound with
  | Raise e => Raise e
  | Ok m =>
      Ok {| _features := Some (set_index_name (pd_Series m) "atom_features");
            n_jobs := n_jobs self;
            verbose := verbose self |}
  end.

(** [AtomFeaturizer(features, n_jobs, verbose)]; the defaults are
    ['all'], [1] and [True] *)
Definition AtomFeaturizer_init (features : features_arg) (jobs : Z)
    (verb : bool) : result AtomFeaturizer :=
  set_features {| _features := None; n_jobs := jobs; verbose := verb |}
               features.

(** the getter of the [features] property *)
Definition features (self : AtomFeaturizer) : option Series := _features self.

Definition minor_axis (self : AtomFeaturizer) : result Index :=
  match features self with
  | None => Raise AttributeError
  | Some s => Ok {| labels := map fst (items s); name := index_name s |}
  end.

Definition _transform_atom (self : AtomFeaturizer) (atom : Atom)
  : M (list scalar) :=
  match features self with
  | None => raise AttributeError
  | Some s => for_each (fun f => call f atom) (map snd (items s))
  end.

(** Modelled from the spec: [transform] of the base class
    [AtomTransformer] ([skchem.base], not in this file) called on one
    atom: it applies every selected function in selection order, which
    is [_transform_atom]. *)
Definition transform_atom (self : AtomFeaturizer) (atom : Atom)
  : M (list scalar) :=
  _transform_atom self atom.

Definition _transform_mol (self : AtomFeaturizer) (mol : Mol)
  : M (list (list scalar)) :=
  for_each (fun a => transform_atom self a) (atoms mol).

End Featurizer.

(** ** Distance transformers *)

(** Modelled from the spec: [nanarray] ([skchem.utils], not in this
    file): an array of the given shape whose every cell is the missing
    sentinel. *)
Definition nanarray (shp : nat * nat) : ndarray :=
  {| shape := shp; data := repeat (repeat NaN (snd shp)) (fst shp) |}.

Definition cell (a : list (list float)) (i j : nat) : float :=
  nth j (nth i a []) NaN.

(** the extent of a slice [:stop] (or [:] for [None]) on an axis of
    length [n] *)
Definition slice_len (stop : option nat) (n : nat) : nat :=
  match stop with
  | None => n
  | Some k => Nat.min k n
  end.

(** numpy broadcasting of an axis of length [src] onto one of length
    [dst] *)
Definition broadcastable (src dst : nat) : bool :=
  Nat.eqb src dst || Nat.eqb src 1.

(** [res[:rstop, :cstop] = src]: the block is overwritten cell by cell,
    an axis of [src] of length one is repeated, any other mismatch of
    shapes raises [ValueError] *)
Definition assign_block (res : ndarray) (rstop cstop : option nat)
    (src : ndarray) : result ndarray :=
  let tr := slice_len rstop (fst (shape res)) in
  let tc := slice_len cstop (snd (shape res)) in
  if broadcastable (fst (shape src)) tr && broadcastable (snd (shape src)) tc
  then
    Ok {| shape := shape res;
          data :=
            map (fun i =>
                   map (fun j =>
                          if Nat.ltb i tr && Nat.ltb j tc then
                            cell (data src)
                                 (if Nat.eqb (fst (shape src)) 1 then 0 else i)
                                 (if Nat.eqb (snd (shape src)) 1 then 0 else j)
                          else cell (data res) i j)
                       (seq 0 (snd (shape res))))
                (seq 0 (fst (shape res))) |}
  else Raise ValueError.

(** a [pd.DataFrame] of floats with integer labels *)
Record DataFrame := {
  df_index : list nat;
  df_columns : list nat;
  df_values : list (list float)
}.

Definition df_shape (df : DataFrame) : nat * nat :=
  (List.length (df_index df), List.length (df_columns df)).

(** [df.iloc[:r, :c]] *)
Definition iloc (df : DataFrame) (r c : nat) : DataFrame :=
  {| df_index := firstn r (df_index df);
     df_columns := firstn c (df_columns df);
     df_values := map (firstn c) (firstn r (df_values df)) |}.

(** a concrete distance transformer: its [name] and its [_transform_mol],
    which is given [max_atoms] *)
Record DistanceTransformerClass := {
  dt_name : string;
  dt_transform_mol : nat -> Mol -> result ndarray
}.

Record DistanceTransformer := {
  dt_class : DistanceTransformerClass;
  max_atoms : nat
}.

(** [pd.RangeIndex(self.max_atoms, name='atom_idx')] *)
Definition dt_minor_axis (self : DistanceTransformer) : list nat :=
  seq 0 (max_atoms self).

(** Modelled from the spec: [transform] of the base class
    [AtomTransformer] ([skchem.base], not in this file) called on one
    molecule: the table [_transform_mol] returns, its rows labelled by
    atom index and its columns by [minor_axis]; a table whose width is
    not the number of column labels is refused. *)
Definition base_transform (self : DistanceTransformer) (mol : Mol)
  : result DataFrame :=
  match dt_transform_mol (dt_class self) (max_atoms self) mol with
  | Raise e => Raise e
  | Ok arr =>
      if Nat.eqb (snd (shape arr)) (List.length (dt_minor_axis self)) then
        Ok {| df_index := seq 0 (fst (shape arr));
              df_columns := dt_minor_axis self;
              df_values := data arr |}
      else Raise ValueError
  end.

(** [DistanceTransformer.transform] on a single molecule, the case
    [isinstance(mols, Mol)] *)
Definition transform (self : DistanceTransformer) (mols : Mol)
  : result DataFrame :=
  match base_transform self mols with
  | Raise e => Raise e
  | Ok res =>
      Ok (iloc res (List.length (atoms mols)) (List.length (atoms mols)))
  end.

Section Distances.
Variable tk : Toolkit.

Definition bind_result {A B} (r : result A) (k : A -> result B) : result B :=
  match r with Ok a => k a | Raise e => Raise e end.

(** [SpacialDistanceTransformer._transform_mol] *)
Definition Spacial_transform_mol (max_atoms : nat) (mol : Mol)
  : result ndarray :=
  let res := nanarray (List.length (atoms mol), max_atoms) in
  bind_result (Get3DDistanceMatrix tk mol)
    (fun d => assign_block res None (Some (List.length (atoms mol))) d).

(** [GraphDistanceTransformer._transform_mol] *)
Definition Graph_transform_mol (max_atoms : nat) (mol : Mol)
  : result ndarray :=
  let res := nanarray (List.length (atoms mol), max_atoms) in
  bind_result (GetDistanceMatrix tk mol)
    (fun d =>
       assign_block res (Some (List.length (atoms mol)))
                    (Some (List.length (atoms mol))) d).

Definition SpacialDistanceTransformer : DistanceTransformerClass :=
  {| dt_name := "spacial_dist"; dt_transform_mol := Spacial_transform_mol |}.

Definition GraphDistanceTransformer : DistanceTransformerClass :=
  {| dt_name := "graph_dist"; dt_transform_mol := Graph_transform_mol |}.

End Distances.

(** what the toolkit promises of a distance matrix: [n] rows of [m]
    cells each *)
Definition well_formed (a : ndarray) (n m : nat) : Prop :=
  shape a = (n, m) /\
  List.length (data a) = n /\
  Forall (fun r => List.length r = m) (data a).

Definition zero_diagonal (v : list (list float)) (k : nat) : Prop :=
  forall i, i < k -> cell v i i = Num 0.

Definition nan_free (v : list (list float)) (k : nat) : Prop :=
  forall i j, i < k -> j < k -> float_is_nan (cell v i j) = false.

(** the table a concrete transformer builds from the toolkit's matrix
    [d]: one row per atom, [max_atoms] columns, the cells beyond the
    matrix left at the missing sentinel *)
Definition padded (d : list (list float)) (k max_atoms : nat) : ndarray :=
  {| shape := (k, max_atoms);
     data := map (fun i =>
                    map (fun j => if Nat.ltb j k then cell d i j else NaN)
                        (seq 0 max_atoms))
                 (seq 0 k) |}.

(** ** Sample data

    A toolkit, a resource table and small molecules on which the
    definitions above are evaluated. *)

Definition unit_distances (n : nat) : ndarray :=
  {| shape := (n, n);
     data := map (fun i =>
                    map (fun j => if Nat.eqb i j then Num 0 else Num 1)
                        (seq 0 n))
                 (seq 0 n) |}.

(** a toolkit for molecules in which any two distinct atoms are bonded:
    no donors, acceptors or contributions are perceived, every Gasteiger
    charge is computed as zero, and two distinct atoms are at distance
    one *)
Definition sample_toolkit : Toolkit :=
  {| HAcceptors := fun _ => [];
     HDonors := fun _ => [];
     Heteroatoms := fun _ => [];
     GetAtomContribs := fun m => map (fun _ => (Num 0, Num 0)) (mol_atoms m);
     CalcTPSAContribs := fun m => map (fun _ => Num 0) (mol_atoms m);
     CalcLabuteASAContribs :=
       fun m => (map (fun _ => Num 0) (mol_atoms m), Num 0);
     ComputeGasteigerCharges :=
       fun m ps =>
         map (fun p => PyDict.set "_GasteigerCharge" (PVFloat (Num 0)) p) ps;
     GetDistanceMatrix :=
       fun m => Ok (unit_distances (List.length (mol_atoms m)));
     Get3DDistanceMatrix :=
       fun m =>
         match mol_conformer m with
         | None => Raise ValueError
         | Some _ => Ok (unit_distances (List.length (mol_atoms m)))
         end;
     float_of_string := fun _ => None |}.

Definition sample_resource : Resource :=
  {| ORGANIC := ["H"; "C"; "N"; "O"; "F"; "P"; "S"; "Cl"; "Br"; "I"];
     PERIODIC_TABLE_loc := fun _ col => Raise (KeyError col) |}.

Definition carbon : AtomData :=
  {| Symbol := "C"; AtomicNum := 6; Mass := Num (12011 # 1000);
     ExplicitValence := 1; ImplicitValence := 3; FormalCharge := 0;
     IsAromatic := false; NumImplicitHs := 3; NumExplicitHs := 0;
     InRing := false; Hybridization := HybridizationType.SP3;
     Electronegativity := Num (255 # 100) |}.

Definition oxygen : AtomData :=
  {| Symbol := "O"; AtomicNum := 8; Mass := Num (15999 # 1000);
     ExplicitValence := 1; ImplicitValence := 1; FormalCharge := 0;
     IsAromatic := false; NumImplicitHs := 1; NumExplicitHs := 0;
     InRing := false; Hybridization := HybridizationType.SP3;
     Electronegativity := Num (344 # 100) |}.

Definition hydrogen : AtomData :=
  {| Symbol := "H"; AtomicNum := 1; Mass := Num (1008 # 1000);
     ExplicitValence := 1; ImplicitValence := 0; FormalCharge := 0;
     IsAromatic := false; NumImplicitHs := 0; NumExplicitHs := 0;
     InRing := false; Hybridization := HybridizationType.S;
     Electronegativity := Num (220 # 100) |}.

(** carbon and oxygen joined by a single bond (methanol's heavy atoms) *)
Definition carbon_oxygen : Mol :=
  {| mol_atoms := [carbon; oxygen];
     mol_bonds := [(0, 1)];
     mol_conformer := Some [(0, 0, 0)%Q; (1, 0, 0)%Q] |}.

(** a lone oxygen atom (water's heavy atom) *)
Definition lone_oxygen : Mol :=
  {| mol_atoms := [oxygen]; mol_bonds := []; mol_conformer := Some [(0, 0, 0)%Q] |}.

(** dihydrogen, whose two Gasteiger charges are zero *)
Definition dihydrogen : Mol :=
  {| mol_atoms := [hydrogen; hydrogen];
     mol_bonds := [(0, 1)];
     mol_conformer := None |}.

(** no property set on either atom, nothing computed yet *)
Definition fresh_state : MolState :=
  {| atom_props := [PyDict.empty propval; PyDict.empty propval];
     toolkit_calls := [] |}.

(** the state of [dihydrogen] once its charges have been computed *)
Definition charged_state : MolState :=
  {| atom_props :=
       [ [("_GasteigerCharge", PVFloat (Num 0))];
         [("_GasteigerCharge", PVFloat (Num 0))] ];
     toolkit_calls := [CallComputeGasteigerCharges dihydrogen] |}.

(** the state of [lone_oxygen] with a nonzero charge cached on its atom *)
Definition cached_state : MolState :=
  {| atom_props := [ [("_GasteigerCharge", PVFloat (Num (-39 # 100)))] ];
     toolkit_calls := [CallComputeGasteigerCharges lone_oxygen] |}.

Definition blank_featurizer : AtomFeaturizer :=
  {| _features := None; n_jobs := 1; verbose := true |}.

(** a toolkit for [carbon_oxygen] read as methanol: the oxygen, atom 1,
    is the one donor, acceptor and heteroatom, and the charges computed
    are 0.03 on the carbon and -0.39 on the oxygen *)
Definition methanol_toolkit : Toolkit :=
  {| HAcceptors := fun _ => [[1]];
     HDonors := fun _ => [[1]];
     Heteroatoms := fun _ => [[1]];
     GetAtomContribs := GetAtomContribs sample_toolkit;
     CalcTPSAContribs := CalcTPSAContribs sample_toolkit;
     CalcLabuteASAContribs := CalcLabuteASAContribs sample_toolkit;
     ComputeGasteigerCharges :=
       fun m ps =>
         map (fun pq => PyDict.set "_GasteigerCharge" (PVFloat (snd pq)) (fst pq))
             (combine ps [Num (3 # 100); Num (-39 # 100)]);
     GetDistanceMatrix := GetDistanceMatrix sample_toolkit;
     Get3DDistanceMatrix := Get3DDistanceMatrix sample_toolkit;
     float_of_string := float_of_string sample_toolkit |}.

(** ** Vocabulary for the properties *)


(** [idx] is the first atom of one of the toolkit's matches *)
Definition heads_a_match (idx : nat) (matches : list (list nat)) : Prop :=
  exists m, In m matches /\ nth_error m 0 = Some idx.

(** * Properties *)

(** ** Facts about dictionaries *)

Section DictFacts.
Variable V : Type.
Implicit Types (d : PyDict.t V) (k : string) (v : V).

Lemma get_set_same k v d : PyDict.get k (PyDict.set k v d) = Some v.
Proof.
  induction d as [|[k' v'] r IH]; simpl.
  - now rewrite String.eqb_refl.
  - destruct (String.eqb k' k) eqn:E; simpl; rewrite E; auto.
Qed.

Lemma get_set_other k k' v d :
  k <> k' -> PyDict.get k' (PyDict.set k v d) = PyDict.get k' d.
Proof.
  intros Hne. induction d as [|[k0 v0] r IH]; simpl.
  - destruct (String.eqb k k') eqn:E; auto.
    apply String.eqb_eq in E. contradiction.
  - destruct (String.eqb k0 k) eqn:E; simpl.
    + apply String.eqb_eq in E. subst k0.
      destruct (String.eqb k k') eqn:E'; auto.
      apply String.eqb_eq in E'. contradiction.
    + now rewrite IH.
Qed.

Lemma get_none_iff k d : PyDict.get k d = None <-> ~ In k (PyDict.keys d).
Proof.
  induction d as [|[k' v'] r IH]; simpl.
  - tauto.
  - destruct (String.eqb k' k) eqn:E.
    + apply String.eqb_eq in E. split; [discriminate | intros H; exfalso; auto].
    + apply String.eqb_neq in E. rewrite IH. tauto.
Qed.

Lemma get_some_in k v d : PyDict.get k d = Some v -> In (k, v) d.
Proof.
  induction d as [|[k' v'] r IH]; simpl; [discriminate|].
  destruct (String.eqb k' k) eqn:E.
  - apply String.eqb_eq in E. intros [= ->]. subst. now left.
  - auto.
Qed.

Lemma in_set k v k' v' d :
  In (k', v') (PyDict.set k v d) -> (k' = k /\ v' = v) \/ In (k', v') d.
Proof.
  induction d as [|[k0 v0] r IH]; simpl.
  - intros [[= <- <-]|[]]. now left.
  - destruct (String.eqb k0 k) eqn:E; simpl.
    + apply String.eqb_eq in E. subst k0.
      intros [[= <- <-]|H]; auto.
    + intros [H|H]; auto. apply IH in H. tauto.
Qed.

Lemma keys_set k v d :
  PyDict.keys (PyDict.set k v d) =
  if existsb (String.eqb k) (PyDict.keys d) then PyDict.keys d
  else PyDict.keys d ++ [k].
Proof.
  induction d as [|[k' v'] r IH]; simpl; auto.
  rewrite (String.eqb_sym k k').
  destruct (String.eqb k' k) eqn:E; simpl; auto.
  rewrite IH. now destruct (existsb (String.eqb k) (PyDict.keys r)).
Qed.

Lemma existsb_eqb_in k (l : list string) :
  existsb (String.eqb k) l = true <-> In k l.
Proof.
  rewrite existsb_exists. split.
  - intros [x [Hx E]]. apply String.eqb_eq in E. now subst.
  - intros H. exists k. split; auto. apply String.eqb_refl.
Qed.

Lemma NoDup_keys_set k v d :
  NoDup (PyDict.keys d) -> NoDup (PyDict.keys (PyDict.set k v d)).
Proof.
  intros H. rewrite keys_set.
  destruct (existsb (String.eqb k) (PyDict.keys d)) eqn:E; auto.
  apply NoDup_app; auto.
  - constructor; [intros [] | constructor].
  - intros x Hx [<-|[]].
    apply existsb_eqb_in in Hx. congruence.
Qed.
End DictFacts.

(** a dict built by assigning [kf x] to [vf x] for [x] along a list: the
    shape of [update] and of a comprehension *)
Section FoldFacts.
Variables (A V : Type) (kf : A -> string) (vf : A -> V).

Let assign (acc : PyDict.t V) (x : A) := PyDict.set (kf x) (vf x) acc.

Lemma fold_set_entries l acc n f :
  In (n, f) (fold_left assign l acc) ->
  In (n, f) acc \/ exists x, In x l /\ n = kf x /\ f = vf x.
Proof.
  revert acc. induction l as [|y r IH]; simpl; intros acc H; auto.
  apply IH in H. destruct H as [H|[x [Hx [Hn Hf]]]].
  - apply in_set in H. destruct H as [[-> ->]|H]; auto.
    right. exists y. auto.
  - right. exists x. auto.
Qed.

Lemma fold_set_get_notin l acc k :
  ~ In k (map kf l) ->
  PyDict.get k (fold_left assign l acc) = PyDict.get k acc.
Proof.
  revert acc. induction l as [|y r IH]; simpl; intros acc H; auto.
  rewrite IH by tauto. apply get_set_other. intros E. apply H. now left.
Qed.

Lemma fold_set_get_in l acc x :
  (forall y, In y l -> kf y = kf x -> vf y = vf x) ->
  In x l ->
  PyDict.get (kf x) (fold_left assign l acc) = Some (vf x).
Proof.
  revert acc x.
  induction l as [|y r IH]; simpl; intros acc x Hfun Hin; [easy|].
  destruct (in_dec string_dec (kf x) (map kf r)) as [Hr|Hr].
  - apply in_map_iff in Hr. destruct Hr as [z [Hz Hzr]].
    rewrite <- Hz, <- (Hfun z (or_intror Hzr) Hz).
    apply IH; auto.
    intros y' Hy' E. rewrite (Hfun z (or_intror Hzr) Hz).
    apply Hfun; auto. congruence.
  - rewrite fold_set_get_notin by assumption.
    destruct Hin as [->|Hin].
    + apply get_set_same.
    + exfalso. apply Hr. now apply in_map.
Qed.

Lemma fold_set_NoDup l acc :
  NoDup (PyDict.keys acc) -> NoDup (PyDict.keys (fold_left assign l acc)).
Proof.
  revert acc. induction l as [|y r IH]; simpl; intros acc H; auto.
  apply IH. now apply NoDup_keys_set.
Qed.
End FoldFacts.

Section UpdateFacts.
Variable V : Type.
Implicit Types (d o : PyDict.t V).

Lemma NoDup_keys_functional o k (v v' : V) :
  NoDup (PyDict.keys o) -> In (k, v) o -> In (k, v') o -> v = v'.
Proof.
  induction o as [|[k0 v0] r IH]; simpl; [easy|].
  intros Hnd [H1|H1] [H2|H2]; inversion Hnd; subst.
  - congruence.
  - inversion H1; subst. exfalso. apply H3.
    change k with (fst (k, v')). now apply in_map.
  - inversion H2; subst. exfalso. apply H3.
    change k with (fst (k, v)). now apply in_map.
  - auto.
Qed.

Lemma update_get d o k :
  NoDup (PyDict.keys o) ->
  PyDict.get k (PyDict.update d o) =
  match PyDict.get k o with
  | Some v => Some v
  | None => PyDict.get k d
  end.
Proof.
  intros Hnd. unfold PyDict.update.
  destruct (PyDict.get k o) as [v|] eqn:E.
  - apply get_some_in in E.
    apply (fold_set_get_in fst snd o d (k, v)); auto.
    intros [k' v'] Hy Hk. simpl in *. subst k'.
    eapply NoDup_keys_functional; eauto.
  - apply fold_set_get_notin. now apply get_none_iff.
Qed.

Lemma update_NoDup d o :
  NoDup (PyDict.keys d) -> NoDup (PyDict.keys (PyDict.update d o)).
Proof. apply fold_set_NoDup. Qed.

Lemma comprehension_NoDup (A : Type) (kf : A -> string) (vf : A -> V) l :
  NoDup (PyDict.keys (PyDict.comprehension kf vf l)).
Proof. apply fold_set_NoDup. constructor. Qed.

Lemma comprehension_get_none (A : Type) (kf : A -> string) (vf : A -> V) l k :
  ~ In k (map kf l) -> PyDict.get k (PyDict.comprehension kf vf l) = None.
Proof.
  intros H. unfold PyDict.comprehension.
  now rewrite fold_set_get_notin.
Qed.

Lemma comprehension_entries (A : Type) (kf : A -> string) (vf : A -> V) l n f :
  PyDict.get n (PyDict.comprehension kf vf l) = Some f ->
  exists x, In x l /\ n = kf x /\ f = vf x.
Proof.
  intros H. apply get_some_in in H.
  apply fold_set_entries in H. destruct H as [[]|H]. exact H.
Qed.
End UpdateFacts.

(** ** Facts about the order of first occurrence *)

Lemma first_occurrences_from_NoDup seen l :
  NoDup l -> (forall x, In x l -> ~ In x seen) ->
  first_occurrences_from seen l = l.
Proof.
  revert seen. induction l as [|x r IH]; simpl; intros seen Hnd Hs; auto.
  inversion Hnd; subst.
  destruct (existsb (String.eqb x) seen) eqn:E.
  - apply existsb_eqb_in in E. exfalso. apply (Hs x); auto.
  - f_equal. apply IH; auto.
    intros y Hy Hin. apply in_app_or in Hin. destruct Hin as [Hin|[<-|[]]].
    + apply (Hs y); auto.
    + contradiction.
Qed.

Lemma first_occurrences_NoDup l : NoDup l -> first_occurrences l = l.
Proof.
  intros H. apply first_occurrences_from_NoDup; auto.
Qed.

(** ** Facts about the selection of a list of names *)

Section SelectFacts.
Variable registry : PyDict.t pyvalue.

Lemma select_features_keys l acc d :
  select_features registry l acc = Ok d ->
  PyDict.keys d = PyDict.keys acc ++ first_occurrences_from (PyDict.keys acc) l.
Proof.
  revert acc. induction l as [|x r IH]; simpl; intros acc H.
  - injection H as <-. now rewrite app_nil_r.
  - destruct (PyDict.get x registry) as [f|]; [|discriminate].
    apply IH in H. rewrite H, keys_set.
    destruct (existsb (String.eqb x) (PyDict.keys acc)); auto.
    now rewrite <- app_assoc.
Qed.

Lemma select_features_registered l acc :
  Forall (fun x => PyDict.get x registry <> None) l ->
  exists d, select_features registry l acc = Ok d.
Proof.
  revert acc. induction l as [|x r IH]; simpl; intros acc H.
  - eauto.
  - inversion H; subst.
    destruct (PyDict.get x registry) as [f|]; [|congruence].
    now apply IH.
Qed.

Lemma select_features_unregistered l acc :
  Exists (fun x => PyDict.get x registry = None) l ->
  exists x, In x l /\ PyDict.get x registry = None /\
            select_features registry l acc = Raise (KeyError x).
Proof.
  revert acc. induction l as [|x r IH]; simpl; intros acc H.
  - inversion H.
  - destruct (PyDict.get x registry) as [f|] eqn:E.
    + inversion H; subst; [congruence|].
      destruct (IH (PyDict.set x f acc) H1) as [y [Hy [Hn Hs]]].
      exists y. auto.
    + exists x. auto.
Qed.
End SelectFacts.

(** ** Facts about the registry *)

Section RegistryFacts.
Variable tk : Toolkit.
Variable rsrc : Resource.

Lemma is_prefix_injective e1 e2 :
  ("is_" ++ e1)%string = ("is_" ++ e2)%string -> e1 = e2.
Proof. simpl. now intros [= ->]. Qed.

Lemma element_features_get e :
  In e (ORGANIC rsrc) ->
  PyDict.get ("is_" ++ e)%string (element_features rsrc) =
  Some (Callable (as_bool (fun a => is_element a e))).
Proof.
  intros H. unfold element_features, PyDict.comprehension.
  apply (fold_set_get_in (fun e => ("is_" ++ e)%string)
           (fun e => Callable (as_bool (fun a => is_element a e)))); auto.
  intros y _ E. apply is_prefix_injective in E. now subst.
Qed.

Lemma element_features_get_none k :
  (forall e, In e (ORGANIC rsrc) -> k <> ("is_" ++ e)%string) ->
  PyDict.get k (element_features rsrc) = None.
Proof.
  intros H. apply comprehension_get_none.
  intros Hin. apply in_map_iff in Hin. destruct Hin as [e [E He]].
  apply (H e He). now symmetry.
Qed.

Lemma registry_get k :
  PyDict.get k (ATOM_FEATURES tk rsrc) =
  match PyDict.get k hybridization_features with
  | Some v => Some v
  | None =>
      match PyDict.get k (element_features rsrc) with
      | Some v => Some v
      | None => PyDict.get k (ATOM_FEATURES_display tk rsrc)
      end
  end.
Proof.
  unfold ATOM_FEATURES.
  rewrite update_get by apply comprehension_NoDup.
  rewrite update_get by apply comprehension_NoDup.
  reflexivity.
Qed.

Lemma registry_NoDup : NoDup (PyDict.keys (ATOM_FEATURES tk rsrc)).
Proof.
  unfold ATOM_FEATURES. do 2 apply update_NoDup.
  unfold ATOM_FEATURES_display, PyDict.literal. apply update_NoDup.
  constructor.
Qed.

Lemma registry_get_valence :
  PyDict.get "valence" (ATOM_FEATURES tk rsrc) = Some (Callable (as_int valence)).
Proof.
  rewrite registry_get.
  rewrite element_features_get_none by (intros e _; simpl; discriminate).
  reflexivity.
Qed.
End RegistryFacts.

(** ** Valence *)

(** C8: for every atom [a], [valence a] is
    [explicit_valence a + implicit_valence a], and the feature
    registered under ['valence'] returns that sum, whatever the organic
    elements are, without touching the state. *)
Theorem valence_explicit_plus_implicit (tk : Toolkit) (rsrc : Resource)
    (a : Atom) :
  valence a = (explicit_valence a + implicit_valence a)%Z /\
  exists f,
    PyDict.get "valence" (ATOM_FEATURES tk rsrc) = Some (Callable f) /\
    forall st,
      f a st = (Ok (SInt (explicit_valence a + implicit_valence a)), st).
Proof.
  split; [reflexivity|].
  exists (as_int valence). split.
  - apply registry_get_valence.
  - intros st. reflexivity.
Qed.

(** ** Configuring the feature selection *)

(** C10: a [dict] or a [pd.Series] given as [features] is taken as it
    is: whatever its keys and values, the setter raises nothing, looks
    nothing up in the registry, and the selection holds the mapping's
    entries unchanged and in the same order. *)
Theorem features_mapping_verbatim (tk : Toolkit) (rsrc : Resource)
    (self : AtomFeaturizer) :
  (forall d : PyDict.t pyvalue,
      exists self',
        set_features tk rsrc self (FDict d) = Ok self' /\
        features self' =
          Some {| index_name := Some "atom_features"; items := d |}) /\
  (forall s : Series,
      exists self',
        set_features tk rsrc self (FSeries s) = Ok self' /\
        features self' =
          Some {| index_name := Some "atom_features"; items := items s |}).
Proof.
  split; intros x; eexists; split; reflexivity.
Qed.

(** C1: the setter raises [NotImplementedError] (the specification's
    UnsupportedFeatureSpec) on a value that is neither a string, a list,
    a dict nor a Series, and [KeyError] (UnknownFeatureName) on a name
    other than ['all'] that is not in the registry, and on a list one of
    whose entries is not in the registry; the key of the error is then
    an entry of the list that is not registered. *)
Theorem features_setter_errors (tk : Toolkit) (rsrc : Resource)
    (self : AtomFeaturizer) :
  (forall o : pyother,
      set_features tk rsrc self (FOther o) = Raise (UnsupportedFeatureSpec o)) /\
  (forall s : string,
      s <> "all" ->
      PyDict.get s (ATOM_FEATURES tk rsrc) = None ->
      set_features tk rsrc self (FStr s) = Raise (UnknownFeatureName s)) /\
  (forall l : list string,
      Exists (fun x => PyDict.get x (ATOM_FEATURES tk rsrc) = None) l ->
      exists x,
        In x l /\ PyDict.get x (ATOM_FEATURES tk rsrc) = None /\
        set_features tk rsrc self (FList l) = Raise (UnknownFeatureName x)).
Proof.
  split; [|split].
  - reflexivity.
  - intros s Hs Hn. unfold set_features.
    apply String.eqb_neq in Hs. now rewrite Hs, Hn.
  - intros l H.
    destruct (@select_features_unregistered (ATOM_FEATURES tk rsrc) l
                (PyDict.empty pyvalue) H) as [x [Hx [Hn Hsel]]].
    exists x. split; [|split]; auto.
    unfold set_features. now rewrite Hsel.
Qed.

Lemma features_setter_errors_witness :
  "mass" <> "all" /\
  PyDict.get "mass" (ATOM_FEATURES sample_toolkit sample_resource) = None /\
  Exists (fun x => PyDict.get x (ATOM_FEATURES sample_toolkit sample_resource)
                   = None) ["valence"; "mass"] /\
  set_features sample_toolkit sample_resource blank_featurizer (FOther (PyInt 3))
    = Raise (UnsupportedFeatureSpec (PyInt 3)) /\
  set_features sample_toolkit sample_resource blank_featurizer (FStr "mass")
    = Raise (UnknownFeatureName "mass") /\
  exists x,
    In x ["valence"; "mass"] /\
    PyDict.get x (ATOM_FEATURES sample_toolkit sample_resource) = None /\
    set_features sample_toolkit sample_resource blank_featurizer
      (FList ["valence"; "mass"]) = Raise (UnknownFeatureName x).
Proof.
  split; [discriminate|].
  split; [reflexivity|].
  split; [apply Exists_cons_tl; apply Exists_cons_hd; reflexivity|].
  split.
  { apply (proj1 (features_setter_errors sample_toolkit sample_resource
                    blank_featurizer)). }
  split.
  { apply (proj1 (proj2 (features_setter_errors sample_toolkit sample_resource
                           blank_featurizer))).
    - discriminate.
    - reflexivity. }
  apply (proj2 (proj2 (features_setter_errors sample_toolkit sample_resource
                         blank_featurizer))).
  apply Exists_cons_tl. apply Exists_cons_hd. reflexivity.
Defined.

(** C2, as the code has it: a registered name gives that one column; a
    list of registered names gives its names in order of first
    occurrence, a repeated name giving one column, hence the list itself
    when no name is repeated; ['all'] gives the keys of the registry, as
    many columns as the registry has entries. *)
Theorem minor_axis_labels (tk : Toolkit) (rsrc : Resource)
    (self : AtomFeaturizer) :
  (forall s : string,
      s <> "all" ->
      PyDict.get s (ATOM_FEATURES tk rsrc) <> None ->
      exists self',
        set_features tk rsrc self (FStr s) = Ok self' /\
        minor_axis self' =
          Ok {| labels := [s]; name := Some "atom_features" |}) /\
  (forall l : list string,
      Forall (fun x => PyDict.get x (ATOM_FEATURES tk rsrc) <> None) l ->
      exists self',
        set_features tk rsrc self (FList l) = Ok self' /\
        minor_axis self' =
          Ok {| labels := first_occurrences l; name := Some "atom_features" |} /\
        (NoDup l -> first_occurrences l = l)) /\
  (exists self' idx,
      set_features tk rsrc self (FStr "all") = Ok self' /\
      minor_axis self' = Ok idx /\
      labels idx = PyDict.keys (ATOM_FEATURES tk rsrc) /\
      List.length (labels idx) = PyDict.len (ATOM_FEATURES tk rsrc)).
Proof.
  split; [|split].
  - intros s Hs Hreg. unfold set_features.
    apply String.eqb_neq in Hs. rewrite Hs.
    destruct (PyDict.get s (ATOM_FEATURES tk rsrc)) as [f|]; [|congruence].
    eexists. split; reflexivity.
  - intros l Hreg.
    destruct (@select_features_registered (ATOM_FEATURES tk rsrc) l
                (PyDict.empty pyvalue) Hreg) as [d Hd].
    unfold set_features. rewrite Hd. simpl.
    eexists. split; [reflexivity|]. split.
    + unfold minor_axis. simpl. do 2 f_equal.
      apply select_features_keys in Hd. exact Hd.
    + apply first_occurrences_NoDup.
  - do 2 eexists. split; [reflexivity|]. split; [reflexivity|].
    split; [reflexivity|]. simpl. unfold PyDict.len. apply length_map.
Qed.

Lemma minor_axis_labels_witness :
  "valence" <> "all" /\
  PyDict.get "valence" (ATOM_FEATURES sample_toolkit sample_resource) <> None /\
  Forall (fun x => PyDict.get x (ATOM_FEATURES sample_toolkit sample_resource)
                   <> None) ["is_C"; "is_O"; "is_aromatic"; "is_in_ring"] /\
  (exists self',
      set_features sample_toolkit sample_resource blank_featurizer
        (FStr "valence") = Ok self' /\
      minor_axis self' =
        Ok {| labels := ["valence"]; name := Some "atom_features" |}) /\
  (exists self',
      set_features sample_toolkit sample_resource blank_featurizer
        (FList ["is_C"; "is_O"; "is_aromatic"; "is_in_ring"]) = Ok self' /\
      minor_axis self' =
        Ok {| labels :=
                first_occurrences ["is_C"; "is_O"; "is_aromatic"; "is_in_ring"];
              name := Some "atom_features" |} /\
      (NoDup ["is_C"; "is_O"; "is_aromatic"; "is_in_ring"] ->
       first_occurrences ["is_C"; "is_O"; "is_aromatic"; "is_in_ring"] =
       ["is_C"; "is_O"; "is_aromatic"; "is_in_ring"])).
Proof.
  split; [discriminate|].
  split; [discriminate|].
  split; [repeat constructor; discriminate|].
  split.
  { apply (proj1 (minor_axis_labels sample_toolkit sample_resource
                    blank_featurizer)); discriminate. }
  apply (proj1 (proj2 (minor_axis_labels sample_toolkit sample_resource
                         blank_featurizer))).
  repeat constructor; discriminate.
Defined.

(** C2 as stated fails on a list that repeats a name: the comprehension
    builds a dict, so ['valence', 'is_aromatic', 'valence'] selects two
    columns, not the three requested. *)
Lemma minor_axis_repeated_name_counterexample :
  exists self',
    set_features sample_toolkit sample_resource blank_featurizer
      (FList ["valence"; "is_aromatic"; "valence"]) = Ok self' /\
    minor_axis self' =
      Ok {| labels := ["valence"; "is_aromatic"];
            name := Some "atom_features" |} /\
    ["valence"; "is_aromatic"] <> ["valence"; "is_aromatic"; "valence"].
Proof.
  eexists. split; [reflexivity|]. split; [reflexivity|]. discriminate.
Qed.

(** ** Generated element and hybridization features *)

(** C5: for every organic element [e], the feature generated under
    ['is_' + e] returns true exactly on the atoms whose symbol is [e]
    (each partial application holds its own element), and two generated
    element features that both return true on an atom are the same
    feature. *)
Theorem element_features_own_element (rsrc : Resource) (e : string)
    (He : In e (ORGANIC rsrc)) :
  (exists f,
      PyDict.get ("is_" ++ e)%string (element_features rsrc)
        = Some (Callable f) /\
      forall a st, exists b,
        f a st = (Ok (SBool b), st) /\ (b = true <-> GetSymbol a = e)) /\
  (forall a st n1 n2 f1 f2 st1 st2,
      PyDict.get n1 (element_features rsrc) = Some f1 ->
      PyDict.get n2 (element_features rsrc) = Some f2 ->
      call f1 a st = (Ok (SBool true), st1) ->
      call f2 a st = (Ok (SBool true), st2) ->
      n1 = n2).
Proof.
  split.
  - exists (as_bool (fun a => is_element a e)). split.
    + now apply element_features_get.
    + intros a st. exists (is_element a e). split; [reflexivity|].
      unfold is_element, element. apply String.eqb_eq.
  - intros a st n1 n2 f1 f2 st1 st2 H1 H2 C1 C2.
    apply comprehension_entries in H1. destruct H1 as [x1 [_ [-> ->]]].
    apply comprehension_entries in H2. destruct H2 as [x2 [_ [-> ->]]].
    simpl in C1, C2. unfold as_bool, ret in C1, C2.
    injection C1 as E1 _. injection C2 as E2 _.
    apply String.eqb_eq in E1, E2. congruence.
Qed.

Lemma element_features_own_element_witness :
  In "C" (ORGANIC sample_resource) /\
  (exists f,
      PyDict.get "is_C" (element_features sample_resource)
        = Some (Callable f) /\
      forall a st, exists b,
        f a st = (Ok (SBool b), st) /\ (b = true <-> GetSymbol a = "C")) /\
  (forall a st n1 n2 f1 f2 st1 st2,
      PyDict.get n1 (element_features sample_resource) = Some f1 ->
      PyDict.get n2 (element_features sample_resource) = Some f2 ->
      call f1 a st = (Ok (SBool true), st1) ->
      call f2 a st = (Ok (SBool true), st2) ->
      n1 = n2).
Proof.
  split.
  - simpl. tauto.
  - apply (element_features_own_element sample_resource "C").
    simpl. tauto.
Defined.

(** C6: for every hybridization state [h], the feature generated under
    ['is_' + h + '_hybridized'] returns true exactly on the atoms whose
    hybridization is [h], and two generated hybridization features that
    both return true on an atom are the same feature. *)
Theorem hybridization_features_own_state (h : HybridizationType.t) :
  (exists f,
      PyDict.get ("is_" ++ HybridizationType.str h ++ "_hybridized")%string
                 hybridization_features = Some (Callable f) /\
      forall a st, exists b,
        f a st = (Ok (SBool b), st) /\ (b = true <-> GetHybridization a = h)) /\
  (forall a st n1 n2 f1 f2 st1 st2,
      PyDict.get n1 hybridization_features = Some f1 ->
      PyDict.get n2 hybridization_features = Some f2 ->
      call f1 a st = (Ok (SBool true), st1) ->
      call f2 a st = (Ok (SBool true), st2) ->
      n1 = n2).
Proof.
  split.
  - exists (as_bool (fun a => is_hybridized a (HName (HybridizationType.str h)))).
    split.
    + destruct h; reflexivity.
    + intros a st. eexists. split; [reflexivity|].
      unfold is_hybridized. simpl. rewrite String.eqb_eq.
      destruct (GetHybridization a), h; simpl; split; congruence.
  - intros a st n1 n2 f1 f2 st1 st2 H1 H2 C1 C2.
    apply comprehension_entries in H1. destruct H1 as [x1 [_ [-> ->]]].
    apply comprehension_entries in H2. destruct H2 as [x2 [_ [-> ->]]].
    simpl in C1, C2. unfold as_bool, ret in C1, C2.
    injection C1 as E1 _. injection C2 as E2 _.
    unfold is_hybridized in E1, E2. simpl in E1, E2.
    apply String.eqb_eq in E1, E2. congruence.
Qed.

Lemma hybridization_features_own_state_witness :
  PyDict.get "is_SP3_hybridized" hybridization_features
    = Some (Callable (as_bool (fun a => is_hybridized a (HName "SP3")))) /\
  call (Callable (as_bool (fun a => is_hybridized a (HName "SP3"))))
       {| GetOwningMol := carbon_oxygen; GetIdx := 0; atom_data := carbon |}
       fresh_state = (Ok (SBool true), fresh_state) /\
  "is_SP3_hybridized" = "is_SP3_hybridized".
Proof.
  split; [reflexivity|]. split; [reflexivity|].
  apply (proj2 (hybridization_features_own_state HybridizationType.SP3)
           {| GetOwningMol := carbon_oxygen; GetIdx := 0; atom_data := carbon |}
           fresh_state "is_SP3_hybridized" "is_SP3_hybridized"
           (Callable (as_bool (fun a => is_hybridized a (HName "SP3"))))
           (Callable (as_bool (fun a => is_hybridized a (HName "SP3"))))
           fresh_state fresh_state); reflexivity.
Defined.

(** ** Featurizing a molecule *)

Section RegistryLookups.
Variable tk : Toolkit.
Variable rsrc : Resource.

Lemma registry_get_element e :
  In e (ORGANIC rsrc) ->
  PyDict.get ("is_" ++ e)%string hybridization_features = None ->
  PyDict.get ("is_" ++ e)%string (ATOM_FEATURES tk rsrc) =
  Some (Callable (as_bool (fun a => is_element a e))).
Proof.
  intros He Hh. rewrite registry_get, Hh.
  now rewrite element_features_get.
Qed.

Lemma registry_get_is_aromatic :
  ~ In "aromatic" (ORGANIC rsrc) ->
  PyDict.get "is_aromatic" (ATOM_FEATURES tk rsrc) =
  Some (Callable (as_bool is_aromatic)).
Proof.
  intros H. rewrite registry_get.
  rewrite element_features_get_none; [reflexivity|].
  intros e He E. simpl in E. injection E as <-. contradiction.
Qed.

Lemma registry_get_is_in_ring :
  ~ In "in_ring" (ORGANIC rsrc) ->
  PyDict.get "is_in_ring" (ATOM_FEATURES tk rsrc) =
  Some (Callable (as_bool is_in_ring)).
Proof.
  intros H. rewrite registry_get.
  rewrite element_features_get_none; [reflexivity|].
  intros e He E. simpl in E. injection E as <-. contradiction.
Qed.
End RegistryLookups.

(** C7: a molecule of two atoms, a carbon and an oxygen, neither
    aromatic nor in a ring, featurized with
    ['is_C', 'is_O', 'is_aromatic', 'is_in_ring'] gives the row
    [True, False, False, False] for atom 0 and
    [False, True, False, False] for atom 1, in the molecule's atom order,
    with those four column labels; the organic elements include C and O
    and none of them is called aromatic or in_ring. *)
Theorem carbon_oxygen_rows (tk : Toolkit) (rsrc : Resource) (mol : Mol)
    (dC dO : AtomData) (st : MolState)
    (HC : In "C" (ORGANIC rsrc)) (HO : In "O" (ORGANIC rsrc))
    (Har : ~ In "aromatic" (ORGANIC rsrc))
    (Hrg : ~ In "in_ring" (ORGANIC rsrc))
    (Hmol : mol_atoms mol = [dC; dO])
    (HsC : Symbol dC = "C") (HaC : IsAromatic dC = false)
    (HrC : InRing dC = false)
    (HsO : Symbol dO = "O") (HaO : IsAromatic dO = false)
    (HrO : InRing dO = false) :
  exists self,
    AtomFeaturizer_init tk rsrc
      (FList ["is_C"; "is_O"; "is_aromatic"; "is_in_ring"]) 1 true = Ok self /\
    minor_axis self =
      Ok {| labels := ["is_C"; "is_O"; "is_aromatic"; "is_in_ring"];
            name := Some "atom_features" |} /\
    _transform_mol self mol st =
      (Ok [ [SBool true; SBool false; SBool false; SBool false];
            [SBool false; SBool true; SBool false; SBool false] ],
       st).
Proof.
  pose proof (@registry_get_element tk rsrc "C" HC eq_refl) as H1.
  pose proof (@registry_get_element tk rsrc "O" HO eq_refl) as H2.
  pose proof (@registry_get_is_aromatic tk rsrc Har) as H3.
  pose proof (@registry_get_is_in_ring tk rsrc Hrg) as H4.
  simpl in H1, H2.
  eexists. split; [|split].
  - unfold AtomFeaturizer_init, set_features.
    cbn [select_features]. rewrite H1.
    cbn [select_features]. rewrite H2.
    cbn [select_features]. rewrite H3.
    cbn [select_features]. rewrite H4.
    cbn [select_features result_map]. reflexivity.
  - reflexivity.
  - unfold _transform_mol, atoms. rewrite Hmol.
    cbn. unfold is_element, element, is_aromatic, is_in_ring,
      GetSymbol, GetIsAromatic, IsInRing. cbn.
    rewrite HsC, HaC, HrC, HsO, HaO, HrO. reflexivity.
Qed.

Lemma carbon_oxygen_rows_witness :
  exists self,
    AtomFeaturizer_init sample_toolkit sample_resource
      (FList ["is_C"; "is_O"; "is_aromatic"; "is_in_ring"]) 1 true = Ok self /\
    minor_axis self =
      Ok {| labels := ["is_C"; "is_O"; "is_aromatic"; "is_in_ring"];
            name := Some "atom_features" |} /\
    _transform_mol self carbon_oxygen fresh_state =
      (Ok [ [SBool true; SBool false; SBool false; SBool false];
            [SBool false; SBool true; SBool false; SBool false] ],
       fresh_state).
Proof.
  apply (@carbon_oxygen_rows sample_toolkit sample_resource carbon_oxygen
           carbon oxygen fresh_state); simpl;
    try reflexivity; try tauto;
    intros H; repeat (destruct H as [H|H]; [discriminate|]); exact H.
Defined.

(** ** Gasteiger charges *)

Lemma app_singleton_neq (A : Type) (l : list A) (x : A) : l ++ [x] <> l.
Proof.
  intros H. apply (f_equal (@List.length A)) in H.
  rewrite length_app in H. simpl in H. lia.
Qed.

(** C9: with [force_calc=False], a cached ['_GasteigerCharge'] that is
    present but falsy is ignored: the charges of the whole owning
    molecule are computed again and the atom's property is read after
    that; and a call that returns without a computation of the charges
    had [force_calc=False] and a truthy cached value, which it
    returns. *)
Theorem gasteiger_charge_cache_policy (tk : Toolkit) (a : Atom)
    (st : MolState) :
  (forall v,
      PyDict.get "_GasteigerCharge" (props a st) = Some v ->
      truthy (Some v) = false ->
      let st' :=
        {| atom_props :=
             ComputeGasteigerCharges tk (GetOwningMol a) (atom_props st);
           toolkit_calls :=
             toolkit_calls st ++ [CallComputeGasteigerCharges (GetOwningMol a)]
        |} in
      gasteiger_charge tk a false st =
        (match PyDict.get "_GasteigerCharge" (props a st') with
         | Some v' => py_float tk (Some v')
         | None => Raise (KeyError "_GasteigerCharge")
         end, st')) /\
  (forall force_calc r st',
      gasteiger_charge tk a force_calc st = (r, st') ->
      toolkit_calls st' = toolkit_calls st ->
      force_calc = false /\
      truthy (PyDict.get "_GasteigerCharge" (props a st)) = true /\
      st' = st /\
      r = py_float tk (PyDict.get "_GasteigerCharge" (props a st))).
Proof.
  split.
  - intros v Hget Hfalsy st'.
    unfold gasteiger_charge, bind, props_get. rewrite Hget, Hfalsy. simpl.
    unfold props_getitem. fold st'.
    destruct (PyDict.get "_GasteigerCharge" (props a st')); reflexivity.
  - intros force_calc r st' Hrun Hcalls.
    unfold gasteiger_charge, bind, props_get in Hrun.
    destruct (truthy (PyDict.get "_GasteigerCharge" (props a st))
              && negb force_calc) eqn:E.
    + apply andb_prop in E. destruct E as [Et Ef].
      unfold lift in Hrun. injection Hrun as <- <-.
      destruct force_calc; [discriminate|]. auto.
    + exfalso. simpl in Hrun. unfold props_getitem in Hrun.
      match type of Hrun with
      | context [PyDict.get _ (props a ?s)] =>
          destruct (PyDict.get "_GasteigerCharge" (props a s))
      end;
        unfold lift in Hrun; injection Hrun as _ <-;
        simpl in Hcalls; now apply app_singleton_neq in Hcalls.
Qed.

Lemma gasteiger_charge_cache_policy_witness :
  (PyDict.get "_GasteigerCharge"
     (props {| GetOwningMol := dihydrogen; GetIdx := 0; atom_data := hydrogen |}
            charged_state) = Some (PVFloat (Num 0)) /\
   truthy (Some (PVFloat (Num 0))) = false /\
   gasteiger_charge sample_toolkit
     {| GetOwningMol := dihydrogen; GetIdx := 0; atom_data := hydrogen |}
     false charged_state =
     (Ok (Num 0),
      {| atom_props := atom_props charged_state;
         toolkit_calls := [CallComputeGasteigerCharges dihydrogen;
                           CallComputeGasteigerCharges dihydrogen] |})) /\
  (gasteiger_charge sample_toolkit
     {| GetOwningMol := lone_oxygen; GetIdx := 0; atom_data := oxygen |}
     false cached_state = (Ok (Num (-39 # 100)), cached_state) /\
   false = false /\
   truthy (PyDict.get "_GasteigerCharge"
             (props {| GetOwningMol := lone_oxygen; GetIdx := 0;
                       atom_data := oxygen |} cached_state)) = true /\
   cached_state = cached_state /\
   Ok (Num (-39 # 100)) =
     py_float sample_toolkit
       (PyDict.get "_GasteigerCharge"
          (props {| GetOwningMol := lone_oxygen; GetIdx := 0;
                    atom_data := oxygen |} cached_state))).
Proof.
  split.
  - split; [reflexivity|]. split; [reflexivity|].
    apply (proj1 (gasteiger_charge_cache_policy sample_toolkit
                    {| GetOwningMol := dihydrogen; GetIdx := 0;
                       atom_data := hydrogen |} charged_state)
             (PVFloat (Num 0)) eq_refl eq_refl).
  - split; [reflexivity|].
    apply (proj2 (gasteiger_charge_cache_policy sample_toolkit
                    {| GetOwningMol := lone_oxygen; GetIdx := 0;
                       atom_data := oxygen |} cached_state)
             false (Ok (Num (-39 # 100))) cached_state eq_refl eq_refl).
Defined.

(** ** Distance tables *)

Section ArrayFacts.

Lemma map_nth_seq (A : Type) (l : list A) (d : A) :
  map (fun j => nth j l d) (seq 0 (List.length l)) = l.
Proof.
  induction l as [|x r IH]; simpl; auto.
  f_equal. rewrite <- seq_shift, map_map. exact IH.
Qed.

Lemma cell_nanarray n m i j : cell (data (nanarray (n, m))) i j = NaN.
Proof.
  unfold cell, nanarray. simpl.
  destruct (Nat.lt_ge_cases i n) as [Hi|Hi].
  - rewrite (nth_indep _ [] (repeat NaN m) (n := i)).
    + rewrite nth_repeat. apply nth_repeat.
    + rewrite repeat_length. exact Hi.
  - rewrite (nth_overflow (repeat (repeat NaN m) n) []).
    + now destruct j.
    + rewrite repeat_length. exact Hi.
Qed.

Lemma cells_of_well_formed (a : ndarray) (k : nat) :
  well_formed a k k ->
  map (fun i => map (fun j => cell (data a) i j) (seq 0 k)) (seq 0 k) = data a.
Proof.
  intros [_ [Hlen Hrows]].
  transitivity (map (fun i => nth i (data a) []) (seq 0 k));
    [|rewrite <- Hlen; apply map_nth_seq].
  apply map_ext_in. intros i Hi. apply in_seq in Hi.
  assert (Hr : List.length (nth i (data a) []) = k).
  { rewrite Forall_forall in Hrows. apply Hrows. apply nth_In. lia. }
  unfold cell. rewrite <- Hr at 1. apply map_nth_seq.
Qed.

Lemma slice_len_stop k n : k <= n -> slice_len (Some k) n = k.
Proof. intros H. simpl. lia. Qed.

(** both concrete transformers fill the first [k] columns of a fresh
    [k] by [max_atoms] table *)
Lemma assign_block_padded (a : ndarray) (k max_atoms : nat)
    (rstop : option nat) :
  k <= max_atoms ->
  well_formed a k k ->
  rstop = None \/ rstop = Some k ->
  assign_block (nanarray (k, max_atoms)) rstop (Some k) a =
  Ok (padded (data a) k max_atoms).
Proof.
  intros Hk [Hshape Hwf] Hr. unfold assign_block.
  replace (shape (nanarray (k, max_atoms))) with (k, max_atoms)
    by reflexivity.
  rewrite Hshape. cbn [fst snd].
  assert (Er : slice_len rstop k = k).
  { destruct Hr as [->| ->]; simpl; lia. }
  rewrite Er, (slice_len_stop Hk).
  unfold broadcastable. rewrite Nat.eqb_refl. simpl.
  unfold padded. do 2 f_equal.
  apply map_ext_in. intros i Hi. apply in_seq in Hi.
  apply map_ext_in. intros j Hj.
  assert (Ei : Nat.ltb i k = true) by (apply Nat.ltb_lt; lia).
  rewrite Ei. simpl.
  destruct (Nat.ltb j k) eqn:Ej.
  - apply Nat.ltb_lt in Ej.
    destruct (Nat.eqb k 1) eqn:E1; auto.
    apply Nat.eqb_eq in E1.
    replace i with 0 by lia. replace j with 0 by lia. reflexivity.
  - apply cell_nanarray.
Qed.

Lemma firstn_seq_from s k n : k <= n -> firstn k (seq s n) = seq s k.
Proof.
  revert s n. induction k as [|k IH]; intros s n H; [reflexivity|].
  destruct n as [|n]; [lia|]. simpl. f_equal. apply IH. lia.
Qed.

Lemma firstn_seq_le k n : k <= n -> firstn k (seq 0 n) = seq 0 k.
Proof. apply firstn_seq_from. Qed.

(** cropping the padded table gives the toolkit's matrix back *)
Lemma crop_padded (a : ndarray) (k max_atoms : nat) :
  k <= max_atoms ->
  well_formed a k k ->
  map (firstn k) (firstn k (data (padded (data a) k max_atoms))) = data a.
Proof.
  intros Hk Hwf. unfold padded. cbn [data].
  rewrite firstn_all2 by (rewrite length_map, length_seq; lia).
  rewrite map_map.
  transitivity
    (map (fun i => map (fun j => cell (data a) i j) (seq 0 k)) (seq 0 k));
    [|now apply cells_of_well_formed].
  apply map_ext_in. intros i Hi.
  rewrite firstn_map, (firstn_seq_le Hk).
  apply map_ext_in. intros j Hj. apply in_seq in Hj.
  assert (Ej : Nat.ltb j k = true) by (apply Nat.ltb_lt; lia).
  now rewrite Ej.
Qed.
End ArrayFacts.

Section DistanceFacts.
Variable tk : Toolkit.

Lemma atoms_length (m : Mol) : List.length (atoms m) = List.length (mol_atoms m).
Proof.
  unfold atoms. rewrite length_map, length_combine, length_seq. lia.
Qed.

Lemma nth_map_seq (A : Type) (f : nat -> A) (n i : nat) (d : A) :
  i < n -> nth i (map f (seq 0 n)) d = f i.
Proof.
  intros H. rewrite (nth_indep _ d (f 0)) by (now rewrite length_map, length_seq).
  rewrite map_nth, seq_nth by assumption. reflexivity.
Qed.

Lemma cell_padded (d : list (list float)) (k max_atoms i j : nat) :
  i < k -> j < max_atoms ->
  cell (data (padded d k max_atoms)) i j =
  if Nat.ltb j k then cell d i j else NaN.
Proof.
  intros Hi Hj. unfold padded, cell at 1. cbn [data].
  rewrite nth_map_seq by assumption. now rewrite nth_map_seq.
Qed.

(** the transform of a single molecule whose table is the padded one:
    the crop gives the toolkit's matrix, labelled by atom index *)
Lemma transform_of_padded (cls : DistanceTransformerClass) (mol : Mol)
    (n : nat) (a : ndarray) :
  let k := List.length (atoms mol) in
  k <= n ->
  well_formed a k k ->
  dt_transform_mol cls n mol = Ok (padded (data a) k n) ->
  transform {| dt_class := cls; max_atoms := n |} mol =
  Ok {| df_index := seq 0 k; df_columns := seq 0 k; df_values := data a |}.
Proof.
  intros k Hk Hwf Htab. unfold transform, base_transform.
  cbn [dt_class max_atoms]. rewrite Htab.
  unfold dt_minor_axis. cbn [shape padded snd fst max_atoms].
  rewrite length_seq, Nat.eqb_refl. fold k.
  unfold iloc. cbn [df_index df_columns df_values].
  rewrite (crop_padded Hk Hwf).
  rewrite (firstn_seq_le Hk), (firstn_seq_le (Nat.le_refl k)). reflexivity.
Qed.

Lemma Graph_transform_mol_padded (mol : Mol) (max_atoms : nat) (a : ndarray) :
  let k := List.length (atoms mol) in
  k <= max_atoms ->
  well_formed a k k ->
  GetDistanceMatrix tk mol = Ok a ->
  Graph_transform_mol tk max_atoms mol = Ok (padded (data a) k max_atoms).
Proof.
  intros k Hk Hwf Hd. unfold Graph_transform_mol. rewrite Hd. simpl.
  apply assign_block_padded; auto.
Qed.

Lemma Spacial_transform_mol_padded (mol : Mol) (max_atoms : nat) (a : ndarray) :
  let k := List.length (atoms mol) in
  k <= max_atoms ->
  well_formed a k k ->
  Get3DDistanceMatrix tk mol = Ok a ->
  Spacial_transform_mol tk max_atoms mol = Ok (padded (data a) k max_atoms).
Proof.
  intros k Hk Hwf Hd. unfold Spacial_transform_mol. rewrite Hd. simpl.
  apply assign_block_padded; auto.
Qed.
End DistanceFacts.

(** C4, as the code has it: for a single molecule of [k] atoms,
    [k <= max_atoms], whose distance matrix from the toolkit is [k] by
    [k], the concrete transformer builds a table of [k] rows (not
    [max_atoms] rows) and [max_atoms] columns, the toolkit's distances
    in the first [k] columns and the missing sentinel in the others, and
    [transform] crops that table to [k] by [k]. *)
Theorem distance_table_then_crop (tk : Toolkit) (mol : Mol)
    (max_atoms : nat) (a : ndarray)
    (Hk : List.length (atoms mol) <= max_atoms)
    (Hwf : well_formed a (List.length (atoms mol)) (List.length (atoms mol))) :
  let k := List.length (atoms mol) in
  let table := padded (data a) k max_atoms in
  let labelled :=
    {| df_index := seq 0 k; df_columns := seq 0 max_atoms;
       df_values := data table |} in
  (GetDistanceMatrix tk mol = Ok a ->
     Graph_transform_mol tk max_atoms mol = Ok table /\
     transform {| dt_class := GraphDistanceTransformer tk;
                  max_atoms := max_atoms |} mol = Ok (iloc labelled k k)) /\
  (Get3DDistanceMatrix tk mol = Ok a ->
     Spacial_transform_mol tk max_atoms mol = Ok table /\
     transform {| dt_class := SpacialDistanceTransformer tk;
                  max_atoms := max_atoms |} mol = Ok (iloc labelled k k)) /\
  shape table = (k, max_atoms) /\
  (forall i j, i < k -> j < max_atoms ->
     cell (data table) i j = if Nat.ltb j k then cell (data a) i j else NaN) /\
  df_shape (iloc labelled k k) = (k, k).
Proof.
  intros k table labelled.
  assert (Hcrop : iloc labelled k k =
                  {| df_index := seq 0 k; df_columns := seq 0 k;
                     df_values := data a |}).
  { subst labelled table k. unfold iloc. cbn [df_index df_columns df_values].
    rewrite (crop_padded Hk Hwf).
    now rewrite (firstn_seq_le Hk), (firstn_seq_le (Nat.le_refl _)). }
  split; [|split; [|split; [|split]]].
  - intros Hd.
    pose proof (Graph_transform_mol_padded tk mol Hk Hwf Hd) as Ht.
    split; [exact Ht|]. rewrite Hcrop.
    now apply transform_of_padded.
  - intros Hd.
    pose proof (Spacial_transform_mol_padded tk mol Hk Hwf Hd) as Ht.
    split; [exact Ht|]. rewrite Hcrop.
    now apply transform_of_padded.
  - reflexivity.
  - intros i j Hi Hj. now apply cell_padded.
  - rewrite Hcrop. unfold df_shape. cbn [df_index df_columns].
    now rewrite length_seq.
Qed.

Lemma unit_distances_well_formed_2 : well_formed (unit_distances 2) 2 2.
Proof. repeat split; repeat constructor. Qed.

Lemma distance_table_then_crop_witness :
  Graph_transform_mol sample_toolkit 3 carbon_oxygen =
    Ok {| shape := (2, 3);
          data := [ [Num 0; Num 1; NaN]; [Num 1; Num 0; NaN] ] |} /\
  transform {| dt_class := GraphDistanceTransformer sample_toolkit;
               max_atoms := 3 |} carbon_oxygen =
    Ok {| df_index := [0; 1]; df_columns := [0; 1];
          df_values := [ [Num 0; Num 1]; [Num 1; Num 0] ] |}.
Proof.
  apply (proj1 (@distance_table_then_crop sample_toolkit carbon_oxygen 3
                  (unit_distances 2) (le_S 2 2 (le_n 2))
                  unit_distances_well_formed_2)).
  reflexivity.
Defined.

(** C4 as stated fails: for a molecule of one atom and [max_atoms = 2]
    the concrete transformer's table has one row and two columns; it is
    not the 2 by 2 table the claim describes. *)
Lemma distance_table_rows_counterexample :
  List.length (atoms lone_oxygen) = 1 /\
  exists table,
    Graph_transform_mol sample_toolkit 2 lone_oxygen = Ok table /\
    Spacial_transform_mol sample_toolkit 2 lone_oxygen = Ok table /\
    shape table = (1, 2) /\
    data table = [ [Num 0; NaN] ] /\
    shape table <> (2, 2).
Proof.
  split; [reflexivity|]. eexists.
  split; [reflexivity|]. split; [reflexivity|].
  split; [reflexivity|]. split; [reflexivity|]. discriminate.
Qed.

(** C3, as the code has it: for a single molecule of [k] atoms with
    [k <= max_atoms], whose distance matrix from the toolkit is [k] by
    [k], has a zero diagonal and holds no missing sentinel, [transform]
    returns a table of shape [k] by [k] whose cells are exactly that
    matrix, rows and columns labelled by atom index: its diagonal is
    zero and none of its cells is the missing sentinel. *)
Theorem distance_transform_single (tk : Toolkit) (mol : Mol)
    (max_atoms : nat) (a : ndarray)
    (Hk : List.length (atoms mol) <= max_atoms)
    (Hwf : well_formed a (List.length (atoms mol)) (List.length (atoms mol)))
    (Hzero : zero_diagonal (data a) (List.length (atoms mol)))
    (Hnan : nan_free (data a) (List.length (atoms mol))) :
  let k := List.length (atoms mol) in
  let good (df : DataFrame) :=
    df_values df = data a /\
    df_index df = seq 0 k /\
    df_columns df = seq 0 k /\
    (forall i j, cell (df_values df) i j = cell (data a) i j) /\
    df_shape df = (k, k) /\
    List.length (df_values df) = k /\
    Forall (fun r => List.length r = k) (df_values df) /\
    zero_diagonal (df_values df) k /\
    nan_free (df_values df) k in
  (GetDistanceMatrix tk mol = Ok a ->
     exists df,
       transform {| dt_class := GraphDistanceTransformer tk;
                    max_atoms := max_atoms |} mol = Ok df /\ good df) /\
  (Get3DDistanceMatrix tk mol = Ok a ->
     exists df,
       transform {| dt_class := SpacialDistanceTransformer tk;
                    max_atoms := max_atoms |} mol = Ok df /\ good df).
Proof.
  intros k good.
  assert (Hgood : good {| df_index := seq 0 k; df_columns := seq 0 k;
                          df_values := data a |}).
  { unfold good, df_shape. cbn [df_index df_columns df_values].
    rewrite length_seq. destruct Hwf as [_ [Hlen Hrows]].
    repeat split; auto. }
  split; intros Hd; eexists; split; try exact Hgood;
    apply transform_of_padded; auto.
  - now apply Graph_transform_mol_padded.
  - now apply Spacial_transform_mol_padded.
Qed.

Lemma unit_distances_zero_diagonal_2 : zero_diagonal (data (unit_distances 2)) 2.
Proof.
  intros i Hi. destruct i as [|[|i]]; try reflexivity. lia.
Qed.

Lemma unit_distances_nan_free_2 : nan_free (data (unit_distances 2)) 2.
Proof.
  intros i j Hi Hj.
  destruct i as [|[|i]]; destruct j as [|[|j]]; try reflexivity; lia.
Qed.

Lemma distance_transform_single_witness :
  let toolkit_matrix := [ [Num 0; Num 1]; [Num 1; Num 0] ] in
  let good (df : DataFrame) :=
    df_values df = toolkit_matrix /\
    df_index df = [0; 1] /\
    df_columns df = [0; 1] /\
    (forall i j, cell (df_values df) i j = cell toolkit_matrix i j) /\
    df_shape df = (2, 2) /\
    List.length (df_values df) = 2 /\
    Forall (fun r => List.length r = 2) (df_values df) /\
    zero_diagonal (df_values df) 2 /\
    nan_free (df_values df) 2 in
  (exists df,
      transform {| dt_class := GraphDistanceTransformer sample_toolkit;
                   max_atoms := 3 |} carbon_oxygen = Ok df /\ good df) /\
  (exists df,
      transform {| dt_class := SpacialDistanceTransformer sample_toolkit;
                   max_atoms := 3 |} carbon_oxygen = Ok df /\ good df).
Proof.
  intros toolkit_matrix good.
  split.
  - apply (proj1 (@distance_transform_single sample_toolkit carbon_oxygen 3
                    (unit_distances 2) (le_S 2 2 (le_n 2))
                    unit_distances_well_formed_2
                    unit_distances_zero_diagonal_2
                    unit_distances_nan_free_2)).
    reflexivity.
  - apply (proj2 (@distance_transform_single sample_toolkit carbon_oxygen 3
                    (unit_distances 2) (le_S 2 2 (le_n 2))
                    unit_distances_well_formed_2
                    unit_distances_zero_diagonal_2
                    unit_distances_nan_free_2)).
    reflexivity.
Defined.

(** C3 as stated fails on a molecule with more atoms than [max_atoms]:
    with [max_atoms = 1] the 2 by 2 matrix of a molecule of two atoms
    does not fit the block it is assigned to, and [transform] raises
    instead of returning a 2 by 2 table. *)
Lemma distance_transform_exceeding_max_atoms_counterexample :
  List.length (atoms carbon_oxygen) = 2 /\
  transform {| dt_class := GraphDistanceTransformer sample_toolkit;
               max_atoms := 1 |} carbon_oxygen = Raise ValueError /\
  transform {| dt_class := SpacialDistanceTransformer sample_toolkit;
               max_atoms := 1 |} carbon_oxygen = Raise ValueError.
Proof. repeat split. Qed.

(** * Further properties of the module *)

(** ** Keys of a dict built by assignments *)

Section FoldKeys.
Variables (A V : Type) (kf : A -> string) (vf : A -> V).

Lemma fold_set_keys (l : list A) (acc : PyDict.t V) :
  PyDict.keys
    (fold_left (fun acc x => PyDict.set (kf x) (vf x) acc) l acc) =
  PyDict.keys acc ++ first_occurrences_from (PyDict.keys acc) (map kf l).
Proof.
  revert acc. induction l as [|x r IH]; simpl; intros acc.
  - now rewrite app_nil_r.
  - rewrite IH, keys_set.
    destruct (existsb (String.eqb (kf x)) (PyDict.keys acc)); auto.
    now rewrite <- app_assoc.
Qed.
End FoldKeys.

Lemma update_keys (V : Type) (d o : PyDict.t V) :
  PyDict.keys (PyDict.update d o) =
  PyDict.keys d ++ first_occurrences_from (PyDict.keys d) (PyDict.keys o).
Proof. unfold PyDict.update. apply (fold_set_keys fst snd). Qed.

Lemma comprehension_keys (A V : Type) (kf : A -> string) (vf : A -> V)
    (l : list A) :
  PyDict.keys (PyDict.comprehension kf vf l) = first_occurrences (map kf l).
Proof. unfold PyDict.comprehension. apply (fold_set_keys kf vf). Qed.

Lemma NoDup_map_is (l : list string) :
  NoDup l -> NoDup (map (fun e => ("is_" ++ e)%string) l).
Proof.
  induction 1 as [|x r Hx Hr IH]; simpl; constructor; auto.
  intros Hin. apply in_map_iff in Hin. destruct Hin as [y [E Hy]].
  injection E as ->. contradiction.
Qed.

Lemma update_keys_disjoint (V : Type) (d o : PyDict.t V) :
  NoDup (PyDict.keys o) ->
  (forall k, In k (PyDict.keys o) -> ~ In k (PyDict.keys d)) ->
  PyDict.keys (PyDict.update d o) = PyDict.keys d ++ PyDict.keys o.
Proof.
  intros Hnd Hdis. rewrite update_keys. f_equal.
  now apply first_occurrences_from_NoDup.
Qed.

(** ** The registry as a whole *)

Section RegistryShape.
Variable tk : Toolkit.
Variable rsrc : Resource.

Lemma element_features_keys_prefix k :
  In k (PyDict.keys (element_features rsrc)) -> String.prefix "is_" k = true.
Proof.
  intros H. destruct (PyDict.get k (element_features rsrc)) as [f|] eqn:E.
  - apply comprehension_entries in E. destruct E as [e [_ [-> _]]].
    simpl. now destruct e.
  - apply get_none_iff in E. contradiction.
Qed.

Lemma hybridization_features_keys_prefix k :
  In k (PyDict.keys hybridization_features) -> String.prefix "is_" k = true.
Proof.
  intros H. simpl in H.
  repeat (destruct H as [<-|H]; [reflexivity|]). destruct H.
Qed.

Lemma registry_get_unprefixed k :
  String.prefix "is_" k = false ->
  PyDict.get k (ATOM_FEATURES tk rsrc) =
  PyDict.get k (ATOM_FEATURES_display tk rsrc).
Proof.
  intros Hp. rewrite registry_get.
  assert (H1 : PyDict.get k hybridization_features = None).
  { apply get_none_iff. intros H.
    apply hybridization_features_keys_prefix in H. congruence. }
  assert (H2 : PyDict.get k (element_features rsrc) = None).
  { apply get_none_iff. intros H.
    apply element_features_keys_prefix in H. congruence. }
  now rewrite H1, H2.
Qed.

Lemma registry_get_hybridization (h : HybridizationType.t) :
  PyDict.get ("is_" ++ HybridizationType.str h ++ "_hybridized")%string
             (ATOM_FEATURES tk rsrc) =
  Some (Callable
          (as_bool (fun a => is_hybridized a (HName (HybridizationType.str h))))).
Proof.
  rewrite registry_get. destruct h; reflexivity.
Qed.
End RegistryShape.

(** X1: the registry resolves a name by the order of its two updates: a
    hybridization name always gives the hybridization test; the name of
    an organic element gives that element's test whenever no
    hybridization feature has the same name, also when the dict display
    has an entry of that name; a name that does not start with ['is_']
    gives the entry of the dict display, if any. *)
Theorem registry_precedence (tk : Toolkit) (rsrc : Resource) :
  (forall h : HybridizationType.t,
      PyDict.get ("is_" ++ HybridizationType.str h ++ "_hybridized")%string
                 (ATOM_FEATURES tk rsrc) =
      Some (Callable
              (as_bool
                 (fun a => is_hybridized a (HName (HybridizationType.str h)))))) /\
  (forall e : string,
      In e (ORGANIC rsrc) ->
      PyDict.get ("is_" ++ e)%string hybridization_features = None ->
      PyDict.get ("is_" ++ e)%string (ATOM_FEATURES tk rsrc) =
      Some (Callable (as_bool (fun a => is_element a e)))) /\
  (forall k : string,
      String.prefix "is_" k = false ->
      PyDict.get k (ATOM_FEATURES tk rsrc) =
      PyDict.get k (ATOM_FEATURES_display tk rsrc)).
Proof.
  split; [|split].
  - apply registry_get_hybridization.
  - intros e He Hh. now apply registry_get_element.
  - apply registry_get_unprefixed.
Qed.

Lemma registry_precedence_witness :
  In "C" (ORGANIC sample_resource) /\
  PyDict.get "is_C" hybridization_features = None /\
  String.prefix "is_" "valence" = false /\
  PyDict.get "is_C" (ATOM_FEATURES sample_toolkit sample_resource) =
    Some (Callable (as_bool (fun a => is_element a "C"))) /\
  PyDict.get "valence" (ATOM_FEATURES sample_toolkit sample_resource) =
    PyDict.get "valence" (ATOM_FEATURES_display sample_toolkit sample_resource).
Proof.
  split; [simpl; tauto|]. split; [reflexivity|]. split; [reflexivity|].
  split.
  - apply (proj1 (proj2 (registry_precedence sample_toolkit sample_resource))
             "C"); [simpl; tauto | reflexivity].
  - apply (proj2 (proj2 (registry_precedence sample_toolkit sample_resource))
             "valence"). reflexivity.
Defined.

Section RegistryKeys.
Variable tk : Toolkit.
Variable rsrc : Resource.

Lemma display_keys :
  PyDict.keys (ATOM_FEATURES_display tk rsrc) =
  [ "atomic_number"; "atomic_mass"; "formal_charge"; "gasteiger_charge";
    "pauling_electronegativity"; "first_ionisation"; "group"; "period";
    "valence"; "is_aromatic"; "num_hydrogens"; "is_in_ring";
    "log_p_contrib"; "molar_refractivity_contrib"; "is_h_acceptor";
    "is_h_donor"; "is_heteroatom"; "total_polar_surface_area_contrib";
    "total_labute_accessible_surface_area" ].
Proof. reflexivity. Qed.

Lemma hybridization_keys :
  PyDict.keys hybridization_features =
  [ "is_UNSPECIFIED_hybridized"; "is_S_hybridized"; "is_SP_hybridized";
    "is_SP2_hybridized"; "is_SP3_hybridized"; "is_SP3D_hybridized";
    "is_SP3D2_hybridized"; "is_OTHER_hybridized" ].
Proof. reflexivity. Qed.

Lemma hybridization_keys_not_display k :
  In k (PyDict.keys hybridization_features) ->
  ~ In k (PyDict.keys (ATOM_FEATURES_display tk rsrc)).
Proof.
  rewrite hybridization_keys, display_keys. intros H.
  simpl in H. repeat (destruct H as [<-|H]; [|]); try contradiction;
    simpl; intros C; repeat (destruct C as [C|C]; [discriminate|]);
    exact C.
Qed.
End RegistryKeys.

(** X2: when the organic elements are distinct and none of their
    generated names is a name of the dict display or of a hybridization
    feature, the registry's keys are the 19 names of the display, then
    one name per organic element in the order of [ORGANIC], then the 8
    hybridization names: 27 entries and one per organic element. *)
Theorem registry_keys_in_order (tk : Toolkit) (rsrc : Resource)
    (Hnd : NoDup (ORGANIC rsrc))
    (Hfresh : forall e, In e (ORGANIC rsrc) ->
        ~ In ("is_" ++ e)%string (PyDict.keys (ATOM_FEATURES_display tk rsrc)) /\
        PyDict.get ("is_" ++ e)%string hybridization_features = None) :
  PyDict.keys (ATOM_FEATURES tk rsrc) =
    PyDict.keys (ATOM_FEATURES_display tk rsrc)
    ++ map (fun e => ("is_" ++ e)%string) (ORGANIC rsrc)
    ++ PyDict.keys hybridization_features /\
  PyDict.len (ATOM_FEATURES tk rsrc) = 27 + List.length (ORGANIC rsrc).
Proof.
  assert (HE : PyDict.keys (element_features rsrc) =
               map (fun e => ("is_" ++ e)%string) (ORGANIC rsrc)).
  { unfold element_features. rewrite comprehension_keys.
    apply first_occurrences_NoDup. now apply NoDup_map_is. }
  assert (Hkeys : PyDict.keys (ATOM_FEATURES tk rsrc) =
    PyDict.keys (ATOM_FEATURES_display tk rsrc)
    ++ map (fun e => ("is_" ++ e)%string) (ORGANIC rsrc)
    ++ PyDict.keys hybridization_features).
  { unfold ATOM_FEATURES.
    rewrite update_keys_disjoint.
    - rewrite update_keys_disjoint.
      + now rewrite HE, <- app_assoc.
      + apply comprehension_NoDup.
      + intros k Hk. rewrite HE in Hk. apply in_map_iff in Hk.
        destruct Hk as [e [<- He]]. now apply Hfresh.
    - apply comprehension_NoDup.
    - intros k Hk Hin. rewrite update_keys_disjoint in Hin.
      + apply in_app_or in Hin. destruct Hin as [Hin|Hin].
        * exact (@hybridization_keys_not_display tk rsrc k Hk Hin).
        * rewrite HE in Hin. apply in_map_iff in Hin.
          destruct Hin as [e [<- He]].
          apply get_none_iff in Hk; auto. now apply Hfresh.
      + apply comprehension_NoDup.
      + intros k' Hk'. rewrite HE in Hk'. apply in_map_iff in Hk'.
        destruct Hk' as [e [<- He]]. now apply Hfresh. }
  split; [exact Hkeys|].
  unfold PyDict.len.
  rewrite <- (length_map fst). fold (PyDict.keys (ATOM_FEATURES tk rsrc)).
  rewrite Hkeys, !length_app, length_map, display_keys, hybridization_keys.
  simpl. lia.
Qed.

Lemma sample_organic_fresh e :
  In e (ORGANIC sample_resource) ->
  ~ In ("is_" ++ e)%string
       (PyDict.keys (ATOM_FEATURES_display sample_toolkit sample_resource)) /\
  PyDict.get ("is_" ++ e)%string hybridization_features = None.
Proof.
  intros H. simpl in H.
  repeat (destruct H as [<-|H];
          [split; [intros C; simpl in C;
                   repeat (destruct C as [C|C]; [discriminate|]); exact C
                  | reflexivity]|]).
  destruct H.
Qed.

Lemma sample_organic_NoDup : NoDup (ORGANIC sample_resource).
Proof.
  simpl. repeat (constructor; [simpl; intros C;
    repeat (destruct C as [C|C]; [discriminate|]); exact C|]).
  constructor.
Qed.

Lemma registry_keys_in_order_witness :
  PyDict.keys (ATOM_FEATURES sample_toolkit sample_resource) =
    PyDict.keys (ATOM_FEATURES_display sample_toolkit sample_resource)
    ++ map (fun e => ("is_" ++ e)%string) (ORGANIC sample_resource)
    ++ PyDict.keys hybridization_features /\
  PyDict.len (ATOM_FEATURES sample_toolkit sample_resource) = 37.
Proof.
  apply (@registry_keys_in_order sample_toolkit sample_resource
           sample_organic_NoDup sample_organic_fresh).
Defined.

(** ** Features and the state *)

Section Purity.
Variable tk : Toolkit.
Variable rsrc : Resource.






End Purity.



(** X4: for every atom, [num_hydrogens] is the sum of the implicit and
    the explicit hydrogen counts, and the feature registered under
    ['num_hydrogens'] returns that sum without touching the state,
    whatever the organic elements are. *)
Theorem num_hydrogens_implicit_plus_explicit (tk : Toolkit) (rsrc : Resource)
    (a : Atom) :
  num_hydrogens a = (num_implicit_hydrogens a + num_explicit_hydrogens a)%Z /\
  exists f,
    PyDict.get "num_hydrogens" (ATOM_FEATURES tk rsrc) = Some (Callable f) /\
    forall st,
      f a st =
      (Ok (SInt (GetNumImplicitHs a + GetNumExplicitHs a)), st).
Proof.
  split; [reflexivity|]. exists (as_int num_hydrogens). split.
  - rewrite registry_get_unprefixed; reflexivity.
  - intros st. reflexivity.
Qed.



(** ** More on Gasteiger charges *)

(** X6: when [force_calc] is true, or the cached charge is missing or
    falsy, [gasteiger_charge] runs the toolkit's computation on the
    owning molecule exactly once and reads the atom's property after it:
    it returns the stored value as a float, and raises [KeyError] when
    the toolkit has stored none. *)
Theorem gasteiger_charge_recomputes (tk : Toolkit) (a : Atom)
    (force_calc : bool) (st : MolState)
    (H : force_calc = true \/
         truthy (PyDict.get "_GasteigerCharge" (props a st)) = false) :
  let st' :=
    {| atom_props :=
         ComputeGasteigerCharges tk (GetOwningMol a) (atom_props st);
       toolkit_calls :=
         toolkit_calls st ++ [CallComputeGasteigerCharges (GetOwningMol a)] |} in
  gasteiger_charge tk a force_calc st =
    (match PyDict.get "_GasteigerCharge" (props a st') with
     | Some v => py_float tk (Some v)
     | None => Raise (KeyError "_GasteigerCharge")
     end, st').
Proof.
  intros st'. unfold gasteiger_charge, bind, props_get.
  assert (E : truthy (PyDict.get "_GasteigerCharge" (props a st))
              && negb force_calc = false).
  { destruct H as [->| ->]; [apply andb_false_r | reflexivity]. }
  rewrite E. simpl. unfold props_getitem. fold st'.
  destruct (PyDict.get "_GasteigerCharge" (props a st')); reflexivity.
Qed.

Lemma gasteiger_charge_recomputes_witness :
  gasteiger_charge methanol_toolkit
    {| GetOwningMol := carbon_oxygen; GetIdx := 1; atom_data := oxygen |}
    false fresh_state =
  (Ok (Num (-39 # 100)),
   {| atom_props := [ [("_GasteigerCharge", PVFloat (Num (3 # 100)))];
                      [("_GasteigerCharge", PVFloat (Num (-39 # 100)))] ];
      toolkit_calls := [CallComputeGasteigerCharges carbon_oxygen] |}).
Proof.
  apply (@gasteiger_charge_recomputes methanol_toolkit
           {| GetOwningMol := carbon_oxygen; GetIdx := 1; atom_data := oxygen |}
           false fresh_state).
  right. reflexivity.
Defined.

(** X7: once a call has returned a charge and left a truthy value in the
    atom's property, a further call with [force_calc=False] returns the
    same charge and changes nothing: the toolkit is not called again. *)
Theorem gasteiger_charge_then_cached (tk : Toolkit) (a : Atom)
    (force_calc : bool) (st st1 : MolState) (x : float)
    (Hrun : gasteiger_charge tk a force_calc st = (Ok x, st1))
    (Htruthy : truthy (PyDict.get "_GasteigerCharge" (props a st1)) = true) :
  gasteiger_charge tk a false st1 = (Ok x, st1).
Proof.
  assert (Hx : py_float tk (PyDict.get "_GasteigerCharge" (props a st1)) = Ok x).
  { unfold gasteiger_charge, bind, props_get in Hrun.
    destruct (truthy (PyDict.get "_GasteigerCharge" (props a st))
              && negb force_calc).
    - unfold lift in Hrun. injection Hrun as Hr <-. exact Hr.
    - simpl in Hrun. unfold props_getitem in Hrun.
      match type of Hrun with
      | context [PyDict.get _ (props a ?s)] =>
          destruct (PyDict.get "_GasteigerCharge" (props a s)) as [v|] eqn:Ev
      end; unfold lift in Hrun; [|discriminate].
      injection Hrun as Hr <-. now rewrite Ev. }
  unfold gasteiger_charge, bind, props_get. rewrite Htruthy. simpl.
  unfold lift. now rewrite Hx.
Qed.

Lemma gasteiger_charge_then_cached_witness :
  let o := {| GetOwningMol := carbon_oxygen; GetIdx := 1; atom_data := oxygen |} in
  let st1 :=
    {| atom_props := [ [("_GasteigerCharge", PVFloat (Num (3 # 100)))];
                       [("_GasteigerCharge", PVFloat (Num (-39 # 100)))] ];
       toolkit_calls := [CallComputeGasteigerCharges carbon_oxygen] |} in
  gasteiger_charge methanol_toolkit o true fresh_state
    = (Ok (Num (-39 # 100)), st1) /\
  truthy (PyDict.get "_GasteigerCharge" (props o st1)) = true /\
  gasteiger_charge methanol_toolkit o false st1 = (Ok (Num (-39 # 100)), st1).
Proof.
  intros o st1.
  split; [reflexivity|]. split; [reflexivity|].
  apply (@gasteiger_charge_then_cached methanol_toolkit o true fresh_state);
    reflexivity.
Defined.

(** ** Donors, acceptors and heteroatoms *)

Lemma first_of_each_nonempty (matches : list (list nat)) :
  Forall (fun m => m <> []) matches ->
  first_of_each matches = Ok (map (hd 0) matches).
Proof.
  unfold first_of_each.
  set (g := fun i : list nat =>
              match nth_error i 0 with
              | Some x => Ok x
              | None => Raise IndexError
              end).
  induction 1 as [|m r Hm Hr IH]; [reflexivity|].
  cbn [for_each_result map]. rewrite IH.
  destruct m as [|y m]; [congruence|]. reflexivity.
Qed.

Lemma first_of_each_empty_match (matches : list (list nat)) :
  In [] matches -> first_of_each matches = Raise IndexError.
Proof.
  unfold first_of_each.
  set (g := fun i : list nat =>
              match nth_error i 0 with
              | Some x => Ok x
              | None => Raise IndexError
              end).
  induction matches as [|m r IH]; intros Hin; [destruct Hin|].
  cbn [for_each_result].
  destruct m as [|y m]; [reflexivity|].
  destruct Hin as [Hin|Hin]; [discriminate|].
  rewrite (IH Hin). reflexivity.
Qed.

Lemma first_of_each_spec (idx : nat) (matches : list (list nat)) :
  (Forall (fun m => m <> []) matches ->
     exists b,
       result_map (existsb (Nat.eqb idx)) (first_of_each matches) = Ok b /\
       (b = true <-> heads_a_match idx matches)) /\
  (In [] matches ->
     result_map (existsb (Nat.eqb idx)) (first_of_each matches)
     = Raise IndexError).
Proof.
  split.
  - intros Hne. rewrite (first_of_each_nonempty Hne). simpl.
    eexists. split; [reflexivity|].
    rewrite existsb_exists. unfold heads_a_match. split.
    + intros [y [Hy E]]. apply Nat.eqb_eq in E. subst y.
      apply in_map_iff in Hy. destruct Hy as [m [Hd Hm]].
      exists m. split; auto. rewrite Forall_forall in Hne.
      specialize (Hne m Hm). destruct m as [|z m]; [congruence|].
      simpl in *. now subst.
    + intros [m [Hm Hd]]. exists idx. split; [|apply Nat.eqb_refl].
      apply in_map_iff. exists m. split; auto.
      destruct m as [|z m]; [discriminate|]. simpl in *. congruence.
  - intros Hin. now rewrite (first_of_each_empty_match _ Hin).
Qed.

(** X8: [is_h_acceptor], [is_h_donor] and [is_hetero] look only at the
    first atom of each match the toolkit returns: when no match is
    empty, the result is true exactly when the atom's index is the
    first index of some match; an empty match makes the call raise
    [IndexError]. *)
Theorem match_features_first_atom (tk : Toolkit) (a : Atom) :
  let flags (r : result bool) (matches : list (list nat)) :=
    (Forall (fun m => m <> []) matches ->
       exists b, r = Ok b /\ (b = true <-> heads_a_match (GetIdx a) matches)) /\
    (In [] matches -> r = Raise IndexError) in
  flags (is_h_acceptor tk a) (HAcceptors tk (GetOwningMol a)) /\
  flags (is_h_donor tk a) (HDonors tk (GetOwningMol a)) /\
  flags (is_hetero tk a) (Heteroatoms tk (GetOwningMol a)).
Proof.
  intros flags. unfold flags, is_h_acceptor, is_h_donor, is_hetero.
  repeat split; apply first_of_each_spec.
Qed.

Lemma match_features_first_atom_witness :
  Forall (fun m : list nat => m <> [])
         (HDonors methanol_toolkit carbon_oxygen) /\
  exists b,
    is_h_donor methanol_toolkit
      {| GetOwningMol := carbon_oxygen; GetIdx := 1; atom_data := oxygen |}
      = Ok b /\
    (b = true <-> heads_a_match 1 (HDonors methanol_toolkit carbon_oxygen)).
Proof.
  assert (H : Forall (fun m : list nat => m <> [])
                     (HDonors methanol_toolkit carbon_oxygen)).
  { repeat constructor. discriminate. }
  split; [exact H|].
  apply (proj1 (proj1 (proj2
           (match_features_first_atom methanol_toolkit
              {| GetOwningMol := carbon_oxygen; GetIdx := 1;
                 atom_data := oxygen |})))).
  exact H.
Defined.

(** ** More on configuring the selection *)

Lemma select_features_app registry pre post acc :
  Forall (fun x => PyDict.get x registry <> None) pre ->
  exists acc',
    select_features registry (pre ++ post) acc =
    select_features registry post acc'.
Proof.
  intros H. revert acc.
  induction H as [|x r Hx Hr IH]; intros acc; simpl; [eauto|].
  destruct (PyDict.get x registry) as [f|]; [|congruence]. apply IH.
Qed.

Lemma registry_get_all (tk : Toolkit) (rsrc : Resource) :
  PyDict.get "all" (ATOM_FEATURES tk rsrc) = None.
Proof. rewrite registry_get_unprefixed; reflexivity. Qed.

(** X9: a list of names fails on its first unregistered entry: when
    every name before [x] is registered and [x] is not, the setter
    raises [KeyError] with key [x], whatever follows [x]. *)
Theorem features_list_first_unregistered (tk : Toolkit) (rsrc : Resource)
    (self : AtomFeaturizer) (pre post : list string) (x : string)
    (Hpre : Forall (fun y => PyDict.get y (ATOM_FEATURES tk rsrc) <> None) pre)
    (Hx : PyDict.get x (ATOM_FEATURES tk rsrc) = None) :
  set_features tk rsrc self (FList (pre ++ x :: post)) = Raise (KeyError x).
Proof.
  unfold set_features.
  destruct (@select_features_app (ATOM_FEATURES tk rsrc) pre (x :: post)
              (PyDict.empty pyvalue) Hpre) as [acc' ->].
  simpl. now rewrite Hx.
Qed.

Lemma features_list_first_unregistered_witness :
  set_features sample_toolkit sample_resource blank_featurizer
    (FList (["valence"; "is_C"] ++ "mass" :: ["weight"; "group"]))
  = Raise (KeyError "mass").
Proof.
  apply (@features_list_first_unregistered sample_toolkit sample_resource
           blank_featurizer ["valence"; "is_C"] ["weight"; "group"] "mass").
  - repeat constructor; discriminate.
  - reflexivity.
Defined.

(** X10: a name other than ['all'] given as a string configures the
    featurizer exactly as the list holding that one name does, also
    when the name is not registered. *)
Theorem features_name_as_singleton_list (tk : Toolkit) (rsrc : Resource)
    (self : AtomFeaturizer) (s : string) (Hs : s <> "all") :
  set_features tk rsrc self (FStr s) = set_features tk rsrc self (FList [s]).
Proof.
  unfold set_features. apply String.eqb_neq in Hs. rewrite Hs. simpl.
  destruct (PyDict.get s (ATOM_FEATURES tk rsrc)); reflexivity.
Qed.

Lemma features_name_as_singleton_list_witness :
  set_features sample_toolkit sample_resource blank_featurizer (FStr "group")
  = set_features sample_toolkit sample_resource blank_featurizer
      (FList ["group"]).
Proof.
  apply (@features_name_as_singleton_list sample_toolkit sample_resource
           blank_featurizer "group").
  discriminate.
Defined.

(** X11: ['all'] is understood only as the whole string: no registry
    holds a feature called ['all'], so a list that contains ['all']
    raises [KeyError] on one of its entries instead of selecting every
    feature. *)
Theorem features_all_inside_list (tk : Toolkit) (rsrc : Resource)
    (self : AtomFeaturizer) (l : list string) (Hin : In "all" l) :
  PyDict.get "all" (ATOM_FEATURES tk rsrc) = None /\
  exists x,
    In x l /\
    set_features tk rsrc self (FList l) = Raise (KeyError x).
Proof.
  split; [apply registry_get_all|].
  assert (H : Exists (fun x => PyDict.get x (ATOM_FEATURES tk rsrc) = None) l).
  { apply Exists_exists. exists "all". split; auto. apply registry_get_all. }
  destruct (@select_features_unregistered (ATOM_FEATURES tk rsrc) l
              (PyDict.empty pyvalue) H) as [x [Hx [Hn Hsel]]].
  exists x. split; auto. unfold set_features. now rewrite Hsel.
Qed.

Lemma features_all_inside_list_witness :
  PyDict.get "all" (ATOM_FEATURES sample_toolkit sample_resource) = None /\
  exists x,
    In x ["valence"; "all"] /\
    set_features sample_toolkit sample_resource blank_featurizer
      (FList ["valence"; "all"]) = Raise (KeyError x).
Proof.
  apply (@features_all_inside_list sample_toolkit sample_resource
           blank_featurizer ["valence"; "all"]).
  simpl. tauto.
Defined.

(** X12: giving the selection read from a configured featurizer back to
    its setter changes nothing: the setter followed by the getter is a
    round trip, and [n_jobs] and [verbose] are kept. *)
Theorem features_round_trip (tk : Toolkit) (rsrc : Resource)
    (self self' : AtomFeaturizer) (arg : features_arg)
    (Hset : set_features tk rsrc self arg = Ok self') :
  n_jobs self' = n_jobs self /\ verbose self' = verbose self /\
  exists s,
    features self' = Some s /\
    index_name s = Some "atom_features" /\
    set_features tk rsrc self' (FSeries s) = Ok self'.
Proof.
  unfold set_features in Hset.
  match type of Hset with
  | match ?r with _ => _ end = _ => destruct r as [m|e]; [|discriminate]
  end.
  injection Hset as <-. simpl.
  split; [reflexivity|]. split; [reflexivity|].
  eexists. split; [reflexivity|]. split; reflexivity.
Qed.

Lemma features_round_trip_witness :
  exists self' s,
    set_features sample_toolkit sample_resource blank_featurizer
      (FList ["is_O"; "valence"]) = Ok self' /\
    features self' = Some s /\
    set_features sample_toolkit sample_resource self' (FSeries s) = Ok self'.
Proof.
  eexists.
  destruct (@features_round_trip sample_toolkit sample_resource
              blank_featurizer _ (FList ["is_O"; "valence"]) eq_refl)
    as [_ [_ [s [Hs [_ Hrt]]]]].
  exists s. split; [reflexivity|]. split; assumption.
Defined.

(** ** Shape of the feature table and failures *)

Section ForEachFacts.
Variables (A B : Type) (g : A -> M B).

Lemma for_each_ok (l : list A) (st st' : MolState) (ys : list B)
    (P : B -> Prop) :
  (forall x st0 y st1, In x l -> g x st0 = (Ok y, st1) -> P y) ->
  for_each g l st = (Ok ys, st') ->
  List.length ys = List.length l /\ Forall P ys.
Proof.
  revert st ys. induction l as [|x r IH]; intros st ys HP H.
  - simpl in H. unfold ret in H. injection H as <- _. auto.
  - cbn [for_each] in H. unfold bind at 1 in H.
    destruct (g x st) as [[y|e] s1] eqn:Eg; [|discriminate].
    unfold bind at 1 in H.
    destruct (for_each g r s1) as [[zs|e] s2] eqn:Er; [|discriminate].
    unfold ret in H. injection H as <- <-.
    destruct (IH s1 zs) as [Hlen Hall]; auto.
    { intros x0 st0 y0 st1 Hx0. apply HP. now right. }
    split; [simpl; congruence|].
    constructor; auto. apply (HP x st y s1); auto. now left.
Qed.

Lemma for_each_first_failure (pre post : list A) (x : A)
    (st st1 st2 : MolState) (ys : list B) (e : exn) :
  for_each g pre st = (Ok ys, st1) ->
  g x st1 = (Raise e, st2) ->
  for_each g (pre ++ x :: post) st = (Raise e, st2).
Proof.
  revert st ys. induction pre as [|p r IH]; intros st ys Hpre Hx.
  - simpl in Hpre. unfold ret in Hpre. injection Hpre as _ <-.
    cbn [app for_each]. unfold bind at 1. now rewrite Hx.
  - cbn [app for_each] in *. unfold bind at 1 in Hpre. unfold bind at 1.
    destruct (g p st) as [[y|e0] s1]; [|discriminate].
    unfold bind at 1 in Hpre. unfold bind at 1.
    destruct (for_each g r s1) as [[zs|e0] s2] eqn:Er; [|discriminate].
    unfold ret in Hpre. injection Hpre as _ <-.
    now rewrite (IH s1 zs Er Hx).
Qed.
End ForEachFacts.

(** X13: the table of a molecule has one row per atom, and each row has
    one cell per column label: when [_transform_mol] returns, the number
    of rows is the molecule's atom count and every row is as long as
    [minor_axis]. *)
Theorem feature_table_shape (self : AtomFeaturizer) (mol : Mol)
    (st st' : MolState) (rows : list (list scalar)) (idx : Index)
    (Haxis : minor_axis self = Ok idx)
    (Hrun : _transform_mol self mol st = (Ok rows, st')) :
  List.length rows = List.length (mol_atoms mol) /\
  Forall (fun row => List.length row = List.length (labels idx)) rows.
Proof.
  unfold _transform_mol in Hrun. rewrite <- atoms_length.
  apply (@for_each_ok _ _ (transform_atom self) (atoms mol) st st' rows
           (fun row => List.length row = List.length (labels idx)));
    [|exact Hrun].
  intros a st0 row st1 _ Hrow.
  unfold transform_atom, _transform_atom in Hrow.
  unfold minor_axis in Haxis.
  destruct (features self) as [s|]; [|discriminate].
  injection Haxis as <-. cbn [labels].
  apply (@for_each_ok _ _ (fun f => call f a) (map snd (items s)) st0 st1 row
           (fun _ => True)) in Hrow; [|auto].
  destruct Hrow as [Hlen _]. now rewrite Hlen, !length_map.
Qed.

Lemma feature_table_shape_witness :
  let self :=
    {| _features :=
         Some {| index_name := Some "atom_features";
                 items :=
                   [ ("is_O", Callable (as_bool (fun a => is_element a "O")));
                     ("valence", Callable (as_int valence));
                     ("atomic_number", Callable (as_int atomic_number)) ] |};
       n_jobs := 1; verbose := true |} in
  let idx := {| labels := ["is_O"; "valence"; "atomic_number"];
                name := Some "atom_features" |} in
  let rows := [ [SBool false; SInt 4; SInt 6]; [SBool true; SInt 2; SInt 8] ] in
  minor_axis self = Ok idx /\
  _transform_mol self carbon_oxygen fresh_state = (Ok rows, fresh_state) /\
  List.length rows = List.length (mol_atoms carbon_oxygen) /\
  Forall (fun row => List.length row = List.length (labels idx)) rows.
Proof.
  intros self idx rows.
  split; [reflexivity|]. split; [reflexivity|].
  apply (@feature_table_shape self carbon_oxygen fresh_state fresh_state
           rows idx); reflexivity.
Defined.

(** X14: a row fails on the first selected value that fails: when the
    values before it have returned and it raises, [_transform_atom]
    raises the same exception and the values after it are not called.
    A mapping with a value that is not callable is accepted by the
    setter and makes every row raise [TypeError]. *)
Theorem transform_atom_first_failure (self : AtomFeaturizer) (s : Series)
    (a : Atom) (pre post : list (string * pyvalue)) (k : string) (v : pyvalue)
    (st st1 st2 : MolState) (ys : list scalar) (e : exn)
    (Hsel : features self = Some s)
    (Hitems : items s = pre ++ (k, v) :: post)
    (Hpre : for_each (fun f => call f a) (map snd pre) st = (Ok ys, st1))
    (Hv : call v a st1 = (Raise e, st2)) :
  _transform_atom self a st = (Raise e, st2).
Proof.
  unfold _transform_atom. rewrite Hsel, Hitems, map_app. cbn [map snd].
  now apply for_each_first_failure with (st1 := st1) (ys := ys).
Qed.

Lemma transform_atom_first_failure_witness :
  exists self,
    set_features sample_toolkit sample_resource blank_featurizer
      (FDict [ ("valence", Callable (as_int valence));
               ("label", NotCallable (PyInt 3));
               ("charge", Callable (as_int formal_charge)) ]) = Ok self /\
    _transform_atom self
      {| GetOwningMol := carbon_oxygen; GetIdx := 0; atom_data := carbon |}
      fresh_state = (Raise TypeError, fresh_state).
Proof.
  eexists. split; [reflexivity|].
  eapply (@transform_atom_first_failure _ _ _
            [("valence", Callable (as_int valence))]
            [("charge", Callable (as_int formal_charge))]
            "label" (NotCallable (PyInt 3)) fresh_state fresh_state);
    reflexivity.
Defined.

(** ** Distance transformers at their limits *)

Lemma assign_block_too_wide (k n : nat) (rstop : option nat) (a : ndarray) :
  n < k -> k <> 1 -> shape a = (k, k) ->
  assign_block (nanarray (k, n)) rstop (Some k) a = Raise ValueError.
Proof.
  intros Hn Hk Hs. unfold assign_block.
  replace (shape (nanarray (k, n))) with (k, n) by reflexivity.
  rewrite Hs. cbn [fst snd slice_len].
  replace (Nat.min k n) with n by lia.
  assert (E : broadcastable k n = false).
  { unfold broadcastable. apply orb_false_iff. split; apply Nat.eqb_neq; lia. }
  rewrite E, andb_false_r. reflexivity.
Qed.

(** X15: a molecule with more atoms than [max_atoms] (and more than one
    atom) cannot be transformed: the toolkit's [k] by [k] matrix does
    not fit the [max_atoms] columns of the table, and both concrete
    transformers, and [transform] with them, raise [ValueError]. *)
Theorem distance_transform_too_many_atoms (tk : Toolkit) (mol : Mol)
    (n : nat) (a : ndarray)
    (Hn : n < List.length (atoms mol))
    (Hk : List.length (atoms mol) <> 1)
    (Hshape : shape a = (List.length (atoms mol), List.length (atoms mol))) :
  (GetDistanceMatrix tk mol = Ok a ->
     Graph_transform_mol tk n mol = Raise ValueError /\
     transform {| dt_class := GraphDistanceTransformer tk; max_atoms := n |} mol
       = Raise ValueError) /\
  (Get3DDistanceMatrix tk mol = Ok a ->
     Spacial_transform_mol tk n mol = Raise ValueError /\
     transform {| dt_class := SpacialDistanceTransformer tk; max_atoms := n |}
               mol = Raise ValueError).
Proof.
  split; intros Hd.
  - assert (Ht : Graph_transform_mol tk n mol = Raise ValueError).
    { unfold Graph_transform_mol. rewrite Hd. simpl.
      now apply assign_block_too_wide. }
    split; [exact Ht|]. unfold transform, base_transform. simpl.
    now rewrite Ht.
  - assert (Ht : Spacial_transform_mol tk n mol = Raise ValueError).
    { unfold Spacial_transform_mol. rewrite Hd. simpl.
      now apply assign_block_too_wide. }
    split; [exact Ht|]. unfold transform, base_transform. simpl.
    now rewrite Ht.
Qed.

Lemma distance_transform_too_many_atoms_witness :
  Graph_transform_mol sample_toolkit 1 carbon_oxygen = Raise ValueError /\
  transform {| dt_class := GraphDistanceTransformer sample_toolkit;
               max_atoms := 1 |} carbon_oxygen = Raise ValueError.
Proof.
  apply (proj1 (@distance_transform_too_many_atoms sample_toolkit
                  carbon_oxygen 1 (unit_distances 2)
                  (le_n 2) (fun E : 2 = 1 => Nat.neq_succ_diag_l 1 E)
                  eq_refl)).
  reflexivity.
Defined.

(** X16: an exception of the toolkit's distance computation, such as a
    missing conformer, is not caught: the concrete transformer and
    [transform] raise that same exception, whatever [max_atoms] is. *)
Theorem distance_errors_propagate (tk : Toolkit) (mol : Mol) (n : nat)
    (e : exn) :
  (GetDistanceMatrix tk mol = Raise e ->
     Graph_transform_mol tk n mol = Raise e /\
     transform {| dt_class := GraphDistanceTransformer tk; max_atoms := n |} mol
       = Raise e) /\
  (Get3DDistanceMatrix tk mol = Raise e ->
     Spacial_transform_mol tk n mol = Raise e /\
     transform {| dt_class := SpacialDistanceTransformer tk; max_atoms := n |}
               mol = Raise e).
Proof.
  split; intros Hd.
  - assert (Ht : Graph_transform_mol tk n mol = Raise e).
    { unfold Graph_transform_mol. now rewrite Hd. }
    split; [exact Ht|]. unfold transform, base_transform. simpl.
    now rewrite Ht.
  - assert (Ht : Spacial_transform_mol tk n mol = Raise e).
    { unfold Spacial_transform_mol. now rewrite Hd. }
    split; [exact Ht|]. unfold transform, base_transform. simpl.
    now rewrite Ht.
Qed.

Lemma distance_errors_propagate_witness :
  Get3DDistanceMatrix sample_toolkit dihydrogen = Raise ValueError /\
  Spacial_transform_mol sample_toolkit 5 dihydrogen = Raise ValueError /\
  transform {| dt_class := SpacialDistanceTransformer sample_toolkit;
               max_atoms := 5 |} dihydrogen = Raise ValueError.
Proof.
  split; [reflexivity|].
  apply (proj2 (distance_errors_propagate sample_toolkit dihydrogen 5
                  ValueError)).
  reflexivity.
Defined.

(** ** Per-atom contributions *)

Lemma atoms_in (m : Mol) (a : Atom) :
  In a (atoms m) ->
  GetOwningMol a = m /\
  nth_error (mol_atoms m) (GetIdx a) = Some (atom_data a).
Proof.
  unfold atoms. intros H. apply in_map_iff in H.
  destruct H as [[i d] [<- Hin]]. simpl. split; [reflexivity|].
  remember (mol_atoms m) as l eqn:El. clear El.
  assert (G : forall s, In (i, d) (combine (seq s (List.length l)) l) ->
                        s <= i /\ nth_error l (i - s) = Some d).
  { clear Hin. induction l as [|x r IH]; intros s Hin; [destruct Hin|].
    simpl in Hin. destruct Hin as [E|Hin].
    - injection E as <- <-. rewrite Nat.sub_diag. split; [lia|reflexivity].
    - destruct (IH (S s) Hin) as [Hle Hn]. split; [lia|].
      replace (i - s) with (S (i - S s)) by lia. exact Hn. }
  destruct (G 0 Hin) as [_ Hn]. now rewrite Nat.sub_0_r in Hn.
Qed.

Lemma getitem_in_range (A : Type) (l : list A) (i : nat) :
  i < List.length l -> exists x, getitem l i = Ok x /\ nth_error l i = Some x.
Proof.
  intros H. unfold getitem.
  destruct (nth_error l i) as [x|] eqn:E; [eauto|].
  apply nth_error_None in E. lia.
Qed.

(** X17: when the toolkit returns one contribution per atom of the
    molecule, the four contribution features return on every atom of
    [mol.atoms], and the logP and molar-refractivity contributions of an
    atom are the two halves of the same Crippen entry; an atom index
    beyond the toolkit's list makes them raise [IndexError]. *)
Theorem contributions_per_atom (tk : Toolkit) (m : Mol) (a : Atom)
    (Ha : In a (atoms m)) :
  (List.length (GetAtomContribs tk m) = List.length (mol_atoms m) ->
     exists p,
       nth_error (GetAtomContribs tk m) (GetIdx a) = Some p /\
       crippen_log_p_contrib tk a = Ok (fst p) /\
       crippen_molar_refractivity_contrib tk a = Ok (snd p)) /\
  (List.length (CalcTPSAContribs tk m) = List.length (mol_atoms m) ->
     exists x, tpsa_contrib tk a = Ok x) /\
  (List.length (fst (CalcLabuteASAContribs tk m)) = List.length (mol_atoms m) ->
     exists x, labute_asa_contrib tk a = Ok x) /\
  (List.length (GetAtomContribs tk m) <= GetIdx a ->
     crippen_log_p_contrib tk a = Raise IndexError /\
     crippen_molar_refractivity_contrib tk a = Raise IndexError).
Proof.
  destruct (atoms_in m a Ha) as [Hm Hnth].
  assert (Hidx : GetIdx a < List.length (mol_atoms m)).
  { apply nth_error_Some. congruence. }
  unfold crippen_log_p_contrib, crippen_molar_refractivity_contrib,
    tpsa_contrib, labute_asa_contrib. rewrite Hm.
  split; [|split; [|split]].
  - intros Hlen.
    destruct (@getitem_in_range _ (GetAtomContribs tk m) (GetIdx a))
      as [p [Hg Hn]]; [lia|].
    exists p. rewrite Hg. auto.
  - intros Hlen.
    destruct (@getitem_in_range _ (CalcTPSAContribs tk m) (GetIdx a))
      as [x [Hg _]]; [lia|]. eauto.
  - intros Hlen.
    destruct (@getitem_in_range _ (fst (CalcLabuteASAContribs tk m)) (GetIdx a))
      as [x [Hg _]]; [lia|]. eauto.
  - intros Hout. unfold getitem.
    apply nth_error_None in Hout. now rewrite Hout.
Qed.

Lemma contributions_per_atom_witness :
  let o := {| GetOwningMol := carbon_oxygen; GetIdx := 1; atom_data := oxygen |} in
  In o (atoms carbon_oxygen) /\
  List.length (GetAtomContribs sample_toolkit carbon_oxygen) =
    List.length (mol_atoms carbon_oxygen) /\
  exists p,
    nth_error (GetAtomContribs sample_toolkit carbon_oxygen) (GetIdx o)
      = Some p /\
    crippen_log_p_contrib sample_toolkit o = Ok (fst p) /\
    crippen_molar_refractivity_contrib sample_toolkit o = Ok (snd p).
Proof.
  intros o.
  assert (Hin : In o (atoms carbon_oxygen)) by (simpl; tauto).
  split; [exact Hin|]. split; [reflexivity|].
  apply (proj1 (@contributions_per_atom sample_toolkit carbon_oxygen o Hin)).
  reflexivity.
Defined.
